(** * go-restclient: interceptor chain, exchange and identity authenticator

    A shallow embedding of [restclient.go], the Identity v2 authenticator and
    the basic-auth interceptor of package [restclient], with the properties
    its specification states about them.

    Go code is effectful: it talks to the network, reads the clock and
    mutates the authenticator behind a pointer.  The embedding threads an
    explicit [World] through every operation.  The world holds the state of
    the host (network, clock, memory of caller values: the type [Env] of the
    [Host] interface), an observation trace and the heap cells of the
    authenticators.  A Go function [(T, error)] becomes a computation in the
    monad [M], which also accounts for run-time panics. *)

From Stdlib Require Import ZArith Bool Lia.
From Stdlib Require Strings.Byte.
From stdpp Require Import base strings list.

Local Open Scope string_scope.
Local Open Scope list_scope.

(** ** Data model *)

(** Opaque identities of host resources: response bodies, streams handed in
    by the caller, caller-owned Go values. *)
Definition Handle := nat.

(** [time.Time] as an instant, counted from the zero [Time]. *)
Definition Time := Z.
Definition zeroTime : Time := 0%Z.

(** [t.After(u)]: strictly later. *)
Definition Time_After (t u : Time) : bool := (u <? t)%Z.

Arguments Time_After (t u)%_Z.

(** The three structs of the Identity v2 wire contract. *)
Record identityAuthApikeyReq := {
  ApikeyReq_Username : string;
  ApikeyReq_Apikey : string
}.

Record identityAuthPasswordReq := {
  PasswordReq_Username : string;
  PasswordReq_Password : string
}.

Record identityAuthResp := {
  Token_Id : string;
  Token_Expires : Time
}.

Inductive StructType := TApikeyReq | TPasswordReq | TAuthResp.

Definition structOf (T : StructType) : Type :=
  match T with
  | TApikeyReq => identityAuthApikeyReq
  | TPasswordReq => identityAuthPasswordReq
  | TAuthResp => identityAuthResp
  end.

Definition zeroStruct (T : StructType) : structOf T :=
  match T with
  | TApikeyReq => {| ApikeyReq_Username := ""; ApikeyReq_Apikey := "" |}
  | TPasswordReq => {| PasswordReq_Username := ""; PasswordReq_Password := "" |}
  | TAuthResp => {| Token_Id := ""; Token_Expires := zeroTime |}
  end.

(** Streams by the interfaces their dynamic type implements. *)
Inductive StreamKind := ReaderOnly | WriterOnly | ReadWriter.

Definition isReader (k : StreamKind) : bool :=
  match k with WriterOnly => false | _ => true end.

Definition isWriter (k : StreamKind) : bool :=
  match k with ReaderOnly => false | _ => true end.

(** [interface{}]: the dynamic shapes the type assertions of the client
    tell apart.  [AnyStruct] is a pointer to one of the package's structs,
    [AnyRef] any other Go value, kept in the host's memory. *)
Inductive Any :=
| AnyNil
| AnyString (s : string)
| AnyBytes (b : list Byte.byte)
| AnyStream (k : StreamKind) (h : Handle)
| AnyStruct (T : StructType) (v : structOf T)
| AnyRef (r : Handle).

Definition MimeType := string.
Definition JsonType : MimeType := "application/json".
Definition TextType : MimeType := "text/plain".

Definition headerContentType := "Content-Type".
Definition headerAccept := "Accept".

Record Entity := {
  ContentType : MimeType;
  Content : Any
}.

Definition NewJsonEntity (content : Any) : Entity :=
  {| ContentType := JsonType; Content := content |}.

Definition NewTextEntity (content : string) : Entity :=
  {| ContentType := TextType; Content := AnyString content |}.

(** Go errors: [errors.New] (and errors of the host), [fmt.Errorf] with a
    [%w] verb, and the client's own *FailedResponseError. *)
Inductive error :=
| errorString (s : string)
| wrapError (msg : string) (err : error)
| FailedResponseError (StatusCode : Z) (Status : string) (E : option Entity).

Definition Errorf_w (prefix : string) (err : error) : error := wrapError prefix err.

Fixpoint error_Error (r : error) : string :=
  match r with
  | errorString s => s
  | wrapError msg err => msg ++ error_Error err
  | FailedResponseError _ Status (Some {| Content := AnyBytes b |}) =>
      let b := if (100 <? length b)%nat then take 100 b else b in
      Status ++ " body=[" ++ String.string_of_list_byte b ++ "]"
  | FailedResponseError _ Status _ => Status
  end.

Definition Unwrap (r : error) : option error :=
  match r with
  | wrapError _ err => Some err
  | _ => None
  end.

(** [http.Header] and [url.Values]. *)
Definition Header := list (string * list string).
Definition Values := list (string * list string).

(** What [buildBodyReader] hands to [http.NewRequestWithContext]. *)
Inductive BodyReader :=
| NilReader
| BufferString (s : string)
| BufferBytes (b : list Byte.byte)
| PassReader (h : Handle)
| JsonBuffer (b : list Byte.byte).

Record Request := {
  Method : string;
  RequestURL : string;
  ReqHeader : Header;
  Body : BodyReader;
  ReqTimeout : Z
}.

Record Response := {
  StatusCode : Z;
  Status : string;
  RespHeader : Header;
  RespBody : Handle
}.

(** Results of the Do method of http.Client.  Its documentation: an error comes without
    a response, except that "a non-nil Response with a non-nil error only
    occurs when CheckRedirect fails"; a nil error comes with a response. *)
Inductive RoundTrip :=
| Answered (resp : Response)
| Failed (err : error)
| RedirectStopped (resp : Response) (err : error).

Definition RoundTrip_pair (r : RoundTrip) : option Response * option error :=
  match r with
  | Answered resp => (Some resp, None)
  | Failed err => (None, Some err)
  | RedirectStopped resp err => (Some resp, Some err)
  end.

(** Observations: transport calls, reads and closes of response bodies, and
    lines written to standard output. *)
Inductive Event :=
| EvSend (req : Request)
| EvRead (body : Handle)
| EvClose (body : Handle)
| EvPrint (line : string).

Definition isSend (ev : Event) : bool :=
  match ev with EvSend _ => true | _ => false end.

Definition isClose (body : Handle) (ev : Event) : bool :=
  match ev with EvClose b => Nat.eqb b body | _ => false end.

Definition transportCalls (t : list Event) : nat := length (List.filter isSend t).
Definition closes (body : Handle) (t : list Event) : nat :=
  length (List.filter (isClose body) t).

(** ** The host: what the Go standard library and the network provide *)

Class Host := {
  Env : Type;
  Url : Type;
  url_Parse : string -> Url + error;
  url_ParseRef : Url -> string -> Url + error;
  url_setRawQuery : Url -> string -> Url;
  url_String : Url -> string;
  values_Encode : Values -> string;
  http_NewRequest_check : string -> string -> option error;
  CanonicalHeaderKey : string -> string;
  basicAuthValue : string -> string -> string;
  json_Encode : Any -> Env -> list Byte.byte + error;
  json_DecodeStruct : forall T : StructType,
      Handle -> structOf T -> Env -> (structOf T * option error) * Env;
  json_DecodeAny : Handle -> Any -> Env -> option error * Env;
  io_Copy : Handle -> Env -> (list Byte.byte * option error) * Env;
  io_CopyTo : Handle -> Handle -> Env -> option error * Env;
  body_Close : Handle -> Env -> option error * Env;
  time_Now : Env -> Time * Env;
  http_Do : Request -> Env -> RoundTrip * Env
}.

Section Restclient.

Context {host : Host}.

(** [Header.Set] and [Header.Get] work on the canonical form of the key. *)
Definition Header_Set (h : Header) (key value : string) : Header :=
  (CanonicalHeaderKey key, [value])
    :: List.filter (fun p => negb (String.eqb (fst p) (CanonicalHeaderKey key))) h.

Definition Header_Get (h : Header) (key : string) : string :=
  match find (fun p => String.eqb (fst p) (CanonicalHeaderKey key)) h with
  | Some (_, v :: _) => v
  | _ => ""
  end.

Definition setHeader (req : Request) (key value : string) : Request :=
  {| Method := Method req; RequestURL := RequestURL req;
     ReqHeader := Header_Set (ReqHeader req) key value;
     Body := Body req; ReqTimeout := ReqTimeout req |}.

(** ** The authenticator's cell *)

(** [restClient] is made by [New], given a base URL and a timeout, and never
    gets an interceptor: the cell keeps these two fields of it. *)
Record identityV2AuthenticatorImpl := {
  username : string;
  password : string;
  apikey : string;
  restClient_BaseUrl : option Url;
  restClient_Timeout : Z;
  token : string;
  tokenExpiration : Time
}.

(** ** World and monad *)

Record World := {
  env : Env;
  trace : list Event;
  heap : list identityV2AuthenticatorImpl
}.

Inductive Outcome (A : Type) :=
| Done (a : A) (w : World)
| Panic (msg : string) (w : World).

Arguments Done {A} a w.
Arguments Panic {A} msg w.

Definition M (A : Type) : Type := World -> Outcome A.

Definition ret {A} (a : A) : M A := fun w => Done a w.

Definition bind {A B} (m : M A) (k : A -> M B) : M B :=
  fun w => match m w with
           | Done a w' => k a w'
           | Panic msg w' => Panic msg w'
           end.

Definition panic {A} (msg : string) : M A := fun w => Panic msg w.

Definition withEnv (w : World) (e : Env) : World :=
  {| env := e; trace := trace w; heap := heap w |}.

Definition record (w : World) (ev : Event) : World :=
  {| env := env w; trace := trace w ++ [ev]; heap := heap w |}.

(** An operation of the host, acting on its own state only. *)
Definition liftEnv {A} (f : Env -> A * Env) : M A :=
  fun w => let (a, e) := f (env w) in Done a (withEnv w e).

Definition readEnv {A} (f : Env -> A) : M A :=
  fun w => Done (f (env w)) w.

Definition emit (ev : Event) : M unit := fun w => Done tt (record w ev).

End Restclient.

Arguments Done {host A} a w.
Arguments Panic {host A} msg w.

Declare Scope go_scope.
Delimit Scope go_scope with go.

Notation "x <- c1 ;; c2" := (bind c1 (fun x => c2))
  (at level 100, c1 at next level, right associativity) : go_scope.
Notation "c1 ;; c2" := (bind c1 (fun _ => c2))
  (at level 100, right associativity) : go_scope.

Local Open Scope go_scope.

Section Client.

Context {host : Host}.

(** ** Client and interceptors *)

Definition Result : Type := option Response * option error.

Definition NextCallback : Type := Request -> M Result.

Definition Interceptor : Type := Request -> NextCallback -> M Result.

(** [interceptors] is a *list.List: nil until the first [AddInterceptor].
    An element pointer is the list from that element on, nil the empty
    list, [Next()] the tail.  The list of a client is not changed while one
    of its exchanges runs. *)
Record Client := {
  BaseUrl : option Url;
  Timeout : Z;
  interceptors : option (list Interceptor)
}.

Definition defaultRestClientTimeout : Z := (60 * 1000000000)%Z.

Definition New : Client :=
  {| BaseUrl := None; Timeout := 0%Z; interceptors := None |}.

Definition AddInterceptor (c : Client) (it : Interceptor) : Client :=
  let l := match interceptors c with
           | None => []
           | Some l => l
           end in
  {| BaseUrl := BaseUrl c; Timeout := Timeout c; interceptors := Some (l ++ [it]) |}.

Definition SetBaseUrl (c : Client) (rawurl : string) : Client * option error :=
  match url_Parse rawurl with
  | inr err => (c, Some (Errorf_w "failed to parse given base url: " err))
  | inl url =>
      ({| BaseUrl := Some url; Timeout := Timeout c; interceptors := interceptors c |}, None)
  end.

Definition Front (c : Client) : list Interceptor :=
  match interceptors c with
  | None => []
  | Some l => l
  end.

Definition timeout (c : Client) : Z :=
  if negb (Timeout c =? 0)%Z then Timeout c else defaultRestClientTimeout.

(** [http.DefaultClient.Do(req)] *)
Definition http_DefaultClient_Do (req : Request) : M Result :=
  emit (EvSend req) ;;
  rt <- liftEnv (http_Do req) ;;
  ret (RoundTrip_pair rt).

Fixpoint doRequest (req : Request) (interceptorElem : list Interceptor)
  {struct interceptorElem} : M Result :=
  match interceptorElem with
  | [] => http_DefaultClient_Do req
  | interceptor :: next =>
      r <- interceptor req (fun newReq => doRequest newReq next) ;;
      let (response, err) := r in
      match err with
      | Some _ => ret (None, err)
      | None => ret (response, err)
      end
  end.

(** ** Building the request *)

Definition buildReqUrl (c : Client) (urlIn : string) (query : Values) : Url + error :=
  let parsed :=
    match BaseUrl c with
    | Some base =>
        match url_ParseRef base urlIn with
        | inr err => inr (Errorf_w "failed to parse given url relative to base: " err)
        | inl reqUrl => inl reqUrl
        end
    | None =>
        match url_Parse urlIn with
        | inr err => inr (Errorf_w ("filed to parse given url " ++ urlIn ++ ": ") err)
        | inl reqUrl => inl reqUrl
        end
    end in
  match parsed with
  | inr err => inr err
  | inl reqUrl =>
      if (0 <? length query)%nat
      then inl (url_setRawQuery reqUrl (values_Encode query))
      else inl reqUrl
  end.

(** The type assertions [x.(string)], [x.([]byte)], [x.(io.Reader)],
    [x.(io.Writer)] and the test [x != nil]. *)
Definition asString (x : Any) : option string :=
  match x with AnyString s => Some s | _ => None end.

Definition asBytes (x : Any) : option (list Byte.byte) :=
  match x with AnyBytes b => Some b | _ => None end.

Definition asReader (x : Any) : option Handle :=
  match x with
  | AnyStream k h => if isReader k then Some h else None
  | _ => None
  end.

Definition asWriter (x : Any) : option Handle :=
  match x with
  | AnyStream k h => if isWriter k then Some h else None
  | _ => None
  end.

Definition isNil (x : Any) : bool :=
  match x with AnyNil => true | _ => false end.

Definition unsupportedRequestEntity : error :=
  errorString "unsupported combination of request content and type".

Definition unsupportedResponseEntity : error :=
  errorString "unsupported combination of request content reference and type".

Definition buildBodyReader (reqIn : option Entity) (e : Env) : BodyReader + error :=
  match reqIn with
  | None => inl NilReader
  | Some reqIn =>
      match asString (Content reqIn) with
      | Some s => inl (BufferString s)
      | None =>
      match asBytes (Content reqIn) with
      | Some b => inl (BufferBytes b)
      | None =>
      match asReader (Content reqIn) with
      | Some r => inl (PassReader r)
      | None =>
          if String.eqb (ContentType reqIn) JsonType && negb (isNil (Content reqIn))
          then match json_Encode (Content reqIn) e with
               | inr err => inr (Errorf_w "failed to encode body: " err)
               | inl buffer => inl (JsonBuffer buffer)
               end
          else inr unsupportedRequestEntity
      end end end
  end.

(** [http.NewRequestWithContext] validates the method and the URL text and
    turns an empty method into GET; [timeoutCtx] is the deadline that
    [context.WithTimeout] derived from [c.timeout()]. *)
Definition buildRequest (timeoutCtx : Z) (method : string) (reqUrl : Url)
    (bodyReader : BodyReader) (reqIn respOut : option Entity) : Request + error :=
  match http_NewRequest_check method (url_String reqUrl) with
  | Some err => inr (Errorf_w "failed to setup request: " err)
  | None =>
      let req := {| Method := if String.eqb method "" then "GET" else method;
                    RequestURL := url_String reqUrl;
                    ReqHeader := [];
                    Body := bodyReader;
                    ReqTimeout := timeoutCtx |} in
      let req := match reqIn with
                 | Some reqIn =>
                     if negb (String.eqb (ContentType reqIn) "")
                     then setHeader req headerContentType (ContentType reqIn)
                     else req
                 | None => req
                 end in
      let req := match respOut with
                 | Some respOut =>
                     if negb (String.eqb (ContentType respOut) "")
                     then setHeader req headerAccept (ContentType respOut)
                     else req
                 | None => req
                 end in
      inl req
  end.

(** ** Processing the response *)

(** [io.Copy(&buffer, body)], [io.Copy(w, body)] and [body.Close()]. *)
Definition copyToBuffer (body : Handle) : M (list Byte.byte * option error) :=
  emit (EvRead body) ;; liftEnv (io_Copy body).

Definition copyToWriter (w body : Handle) : M (option error) :=
  emit (EvRead body) ;; liftEnv (io_CopyTo w body).

Definition Body_Close (body : Handle) : M (option error) :=
  emit (EvClose body) ;; liftEnv (body_Close body).

Definition setContent (respOut : Entity) (content : Any) : Entity :=
  {| ContentType := ContentType respOut; Content := content |}.

(** [decoder.Decode(respOut.Content)]: a pointer to a struct of the package
    is filled in place, any other target lives in the host's memory. *)
Definition decodeInto (body : Handle) (target : Any) : M (Any * option error) :=
  emit (EvRead body) ;;
  match target with
  | AnyStruct T v =>
      r <- liftEnv (json_DecodeStruct T body v) ;;
      ret (AnyStruct T (fst r), snd r)
  | _ =>
      err <- liftEnv (json_DecodeAny body target) ;;
      ret (target, err)
  end.

(** Returns the entity behind [respOut] as the call leaves it, and the
    error. *)
Definition processResponseContent (respOut : Entity) (resp : Response)
  : M (Entity * option error) :=
  match asString (Content respOut) with
  | Some _ =>
      r <- copyToBuffer (RespBody resp) ;;
      match snd r with
      | Some err => ret (respOut, Some (Errorf_w "failed to read response body: " err))
      | None => ret (setContent respOut (AnyString (String.string_of_list_byte (fst r))), None)
      end
  | None =>
  match asBytes (Content respOut) with
  | Some _ =>
      r <- copyToBuffer (RespBody resp) ;;
      match snd r with
      | Some err => ret (respOut, Some (Errorf_w "failed to read response body: " err))
      | None => ret (setContent respOut (AnyBytes (fst r)), None)
      end
  | None =>
  match asWriter (Content respOut) with
  | Some w =>
      err <- copyToWriter w (RespBody resp) ;;
      match err with
      | Some err => ret (respOut, Some (Errorf_w "failed to read response body: " err))
      | None => ret (respOut, None)
      end
  | None =>
      if String.eqb (ContentType respOut) JsonType && negb (isNil (Content respOut))
      then
        r <- decodeInto (RespBody resp) (Content respOut) ;;
        match snd r with
        | Some err => ret (setContent respOut (fst r),
                           Some (Errorf_w "failed to decode response: " err))
        | None => ret (setContent respOut (fst r), None)
        end
      else ret (respOut, Some unsupportedResponseEntity)
  end end end.

Definition buildFailedResponseError (resp : Response) : M error :=
  r <- copyToBuffer (RespBody resp) ;;
  Body_Close (RespBody resp) ;;
  ret (FailedResponseError (StatusCode resp) (Status resp)
         (Some {| ContentType := Header_Get (RespHeader resp) headerContentType;
                  Content := AnyBytes (fst r) |})).

(** ** Exchange *)

(** The result pairs the returned error with the entity behind [respOut] as
    the call leaves it.  The context only bounds the transport call of the
    host: the request carries the timeout it was derived from. *)
Definition ExchangeWithContext (c : Client) (method urlIn : string) (query : Values)
    (reqIn respOut : option Entity) : M (option error * option Entity) :=
  match buildReqUrl c urlIn query with
  | inr err => ret (Some err, respOut)
  | inl reqUrl =>
  bodyReader <- readEnv (buildBodyReader reqIn) ;;
  match bodyReader with
  | inr err => ret (Some err, respOut)
  | inl bodyReader =>
  match buildRequest (timeout c) method reqUrl bodyReader reqIn respOut with
  | inr err => ret (Some err, respOut)
  | inl req =>
  let firstInterceptor := Front c in
  r <- doRequest req firstInterceptor ;;
  let (resp, err) := r in
  match err with
  | Some err => ret (Some (Errorf_w "failed to send request: " err), respOut)
  | None =>
  match resp with
  | None => panic "invalid memory address or nil pointer dereference"
  | Some resp =>
      if (300 <=? StatusCode resp)%Z
      then
        err <- buildFailedResponseError resp ;;
        ret (Some err, respOut)
      else
        match respOut with
        | Some respOut =>
            r <- processResponseContent respOut resp ;;
            match snd r with
            | Some err =>
                Body_Close (RespBody resp) ;;
                ret (Some err, Some (fst r))
            | None =>
                err <- Body_Close (RespBody resp) ;;
                match err with
                | Some err => ret (Some (Errorf_w "failed to close response body: " err),
                                   Some (fst r))
                | None => ret (None, Some (fst r))
                end
            end
        | None =>
            err <- Body_Close (RespBody resp) ;;
            match err with
            | Some err => ret (Some (Errorf_w "failed to close response body: " err), None)
            | None => ret (None, None)
            end
        end
  end end end end end.

Definition Exchange (c : Client) (method urlIn : string) (query : Values)
    (reqIn respOut : option Entity) : M (option error * option Entity) :=
  ExchangeWithContext c method urlIn query reqIn respOut.

(** ** Basic authentication *)

Definition BasicAuth (username password : string) : Interceptor :=
  fun req next =>
    next (setHeader req "Authorization" (basicAuthValue username password)).

(** ** Identity v2 authenticator *)

Definition authTimeout : Z := (60 * 1000000000)%Z.

Definition restClient (a : identityV2AuthenticatorImpl) : Client :=
  {| BaseUrl := restClient_BaseUrl a;
     Timeout := restClient_Timeout a;
     interceptors := None |}.

Definition nilDereference : string := "invalid memory address or nil pointer dereference".

(** Reading and writing the cell behind the receiver pointer. *)
Definition deref (p : nat) : M identityV2AuthenticatorImpl :=
  fun w => match heap w !! p with
           | Some a => Done a w
           | None => Panic nilDereference w
           end.

Definition alloc (a : identityV2AuthenticatorImpl) : M nat :=
  fun w => Done (length (heap w))
             {| env := env w; trace := trace w; heap := heap w ++ [a] |}.

Definition withToken (a : identityV2AuthenticatorImpl) (tok : string) (exp : Time)
  : identityV2AuthenticatorImpl :=
  {| username := username a; password := password a; apikey := apikey a;
     restClient_BaseUrl := restClient_BaseUrl a;
     restClient_Timeout := restClient_Timeout a;
     token := tok; tokenExpiration := exp |}.

Definition assignToken (p : nat) (tok : string) (exp : Time) : M unit :=
  fun w => match heap w !! p with
           | Some a => Done tt {| env := env w; trace := trace w;
                                  heap := <[p := withToken a tok exp]> (heap w) |}
           | None => Panic nilDereference w
           end.

Definition credentials (a : identityV2AuthenticatorImpl) : Any :=
  if negb (String.eqb (apikey a) "")
  then AnyStruct TApikeyReq
         {| ApikeyReq_Username := username a; ApikeyReq_Apikey := apikey a |}
  else AnyStruct TPasswordReq
         {| PasswordReq_Username := username a; PasswordReq_Password := password a |}.

(** The local [resp] after the exchange that was given [&resp]. *)
Definition respAfter (resp : identityAuthResp) (respOut : option Entity) : identityAuthResp :=
  match respOut with
  | Some {| Content := AnyStruct TAuthResp v |} => v
  | _ => resp
  end.

Definition authenticate (p : nat) : M (option error) :=
  a <- deref p ;;
  let req := credentials a in
  let resp := zeroStruct TAuthResp in
  r <- Exchange (restClient a) "POST" "/v2.0/tokens" []
         (Some (NewJsonEntity req)) (Some (NewJsonEntity (AnyStruct TAuthResp resp))) ;;
  match fst r with
  | Some err => ret (Some (Errorf_w "failed to issue token request: " err))
  | None =>
      let resp := respAfter resp (snd r) in
      assignToken p (Token_Id resp) (Token_Expires resp) ;;
      ret None
  end.

Definition intercept (p : nat) : Interceptor :=
  fun req next =>
    now <- liftEnv time_Now ;;
    a <- deref p ;;
    err <- (if Time_After now (tokenExpiration a) then authenticate p else ret None) ;;
    match err with
    | Some err => ret (None, Some err)
    | None =>
        a <- deref p ;;
        next (setHeader req "x-auth-token" (token a))
    end.

Definition IdentityV2Authenticator (identityUrl username password apikey : string)
  : M (option Interceptor * option error) :=
  if String.eqb username "" then ret (None, Some (errorString "username is required"))
  else if String.eqb password "" && String.eqb apikey ""
  then ret (None, Some (errorString "password or Apikey is required"))
  else
    let (restClient, err) := SetBaseUrl New identityUrl in
    match err with
    | Some err => ret (None, Some (Errorf_w "invalid Identity URL: " err))
    | None =>
        impl <- alloc {| username := username; password := password; apikey := apikey;
                         restClient_BaseUrl := BaseUrl restClient;
                         restClient_Timeout := authTimeout;
                         token := ""; tokenExpiration := zeroTime |} ;;
        ret (Some (intercept impl), None)
    end.

End Client.

(** ** Interceptors by the way they use [next] *)

Section Interceptors.

Context {host : Host}.

(** [return next(req')], after preparing [req']: the shape of [BasicAuth]
    and of the header-setting interceptor of the examples. *)
Definition delegating (pre : Request -> M Request) : Interceptor :=
  fun req next => req' <- pre req ;; next req'.

(** The requests that a row of delegating interceptors hands on. *)
Fixpoint prepare (pres : list (Request -> M Request)) (req : Request) : M Request :=
  match pres with
  | [] => ret req
  | pre :: pres => req' <- pre req ;; prepare pres req'
  end.

(** An interceptor that answers by itself and leaves [next] alone. *)
Definition answering (body : Request -> M Result) : Interceptor :=
  fun req _ => body req.

(** The logging interceptor of the examples, with a label: it prints on the
    way in, stamps the request, calls [next], prints on the way out and
    returns what [next] returned. *)
Definition stamp (label : string) (req : Request) : Request :=
  setHeader req "x-req-id" (Header_Get (ReqHeader req) "x-req-id" ++ label).

Definition tracing (label : string) : Interceptor :=
  fun req next =>
    emit (EvPrint ("OUT " ++ label)) ;;
    r <- next (stamp label req) ;;
    emit (EvPrint ("IN " ++ label)) ;;
    ret r.


(** What a link of the chain passes to the link before it. *)
Definition settle (r : Result) : Result :=
  match snd r with
  | Some _ => (None, snd r)
  | None => r
  end.

End Interceptors.

(** ** Notions used by the statements *)

Section Notions.

Context {host : Host}.

(** The request after the interceptors labelled [labels] stamped it, and the
    labels in a row. *)
Definition stamps (labels : list string) (req : Request) : Request :=
  fold_left (fun r l => stamp l r) labels req.

Definition join (labels : list string) : string :=
  fold_right String.append "" labels.

(** Lines 192 to 209 of [ExchangeWithContext]: what it does with the
    response that [doRequest] returned without an error. *)
Definition afterResponse (respOut : option Entity) (resp : Response)
  : M (option error * option Entity) :=
  if (300 <=? StatusCode resp)%Z
  then
    err <- buildFailedResponseError resp ;;
    ret (Some err, respOut)
  else
    match respOut with
    | Some respOut =>
        r <- processResponseContent respOut resp ;;
        match snd r with
        | Some err =>
            Body_Close (RespBody resp) ;;
            ret (Some err, Some (fst r))
        | None =>
            err <- Body_Close (RespBody resp) ;;
            match err with
            | Some err => ret (Some (Errorf_w "failed to close response body: " err),
                               Some (fst r))
            | None => ret (None, Some (fst r))
            end
        end
    | None =>
        err <- Body_Close (RespBody resp) ;;
        match err with
        | Some err => ret (Some (Errorf_w "failed to close response body: " err), None)
        | None => ret (None, None)
        end
    end.

Definition closeError (err : option error) : option error :=
  match err with
  | Some err => Some (Errorf_w "failed to close response body: " err)
  | None => None
  end.

Definition closed (w : World) (body : Handle) : World :=
  {| env := snd (body_Close body (env w));
     trace := trace w ++ [EvClose body];
     heap := heap w |}.

Definition isFailedResponse (err : option error) : bool :=
  match err with
  | Some (FailedResponseError _ _ _) => true
  | _ => false
  end.
(** The nested exchange of [authenticate]. *)
Definition tokenRequest (a : identityV2AuthenticatorImpl) : M (option error * option Entity) :=
  Exchange (restClient a) "POST" "/v2.0/tokens" []
    (Some (NewJsonEntity (credentials a)))
    (Some (NewJsonEntity (AnyStruct TAuthResp (zeroStruct TAuthResp)))).

(** The world after [a.token] and [a.tokenExpiration] were assigned. *)
Definition stored (p : nat) (a : identityV2AuthenticatorImpl) (resp : identityAuthResp)
    (w : World) : World :=
  {| env := env w; trace := trace w;
     heap := <[p := withToken a (Token_Id resp) (Token_Expires resp)]> (heap w) |}.

(** The content shapes that [processResponseContent] takes the body into
    without decoding. *)
Definition rawTarget (x : Any) : bool :=
  match asString x, asBytes x, asWriter x with
  | None, None, None => false
  | _, _, _ => true
  end.

(** The world after [read] of the body went through the host. *)
Definition afterRead (w : World) (body : Handle) (e : Env) : World :=
  {| env := e; trace := trace w ++ [EvRead body]; heap := heap w |}.

End Notions.

(** ** A scripted host

    A host whose clock stands still and whose network answers from a script;
    it runs the client on concrete inputs. *)

Module Script.

Record State := {
  clock : Time;
  replies : list RoundTrip
}.

Definition decodeStruct (T : StructType) (body : Handle) (v : structOf T) (e : State)
  : (structOf T * option error) * State :=
  match T return structOf T -> (structOf T * option error) * State with
  | TAuthResp => fun _ =>
      (({| Token_Id := "secret"; Token_Expires := (clock e + 3600)%Z |}, None), e)
  | _ => fun v => ((v, None), e)
  end v.

Definition roundTrip (req : Request) (e : State) : RoundTrip * State :=
  match replies e with
  | [] => (Failed (errorString "connection refused"), e)
  | r :: rs => (r, {| clock := clock e; replies := rs |})
  end.

Definition encode (x : Any) : list Byte.byte + error :=
  match x with
  | AnyStruct TApikeyReq v =>
      inl (String.list_byte_of_string
             ("apiKeyCredentials " ++ ApikeyReq_Username v ++ " " ++ ApikeyReq_Apikey v))
  | AnyStruct TPasswordReq v =>
      inl (String.list_byte_of_string
             ("passwordCredentials " ++ PasswordReq_Username v ++ " "
                ++ PasswordReq_Password v))
  | _ => inl (String.list_byte_of_string "{}")
  end.

Definition parse (s : string) : string + error :=
  if String.eqb s ":" then inr (errorString "missing protocol scheme") else inl s.

#[export] Instance scripted : Host := {|
  Env := State;
  Url := string;
  url_Parse := parse;
  url_ParseRef := fun base ref => parse (base ++ ref)%string;
  url_setRawQuery := fun u q => (u ++ "?" ++ q)%string;
  url_String := fun u => u;
  values_Encode := fun _ => "q=1";
  http_NewRequest_check := fun _ _ => None;
  CanonicalHeaderKey := fun k => k;
  basicAuthValue := fun u p => ("Basic " ++ u ++ ":" ++ p)%string;
  json_Encode := fun x _ => encode x;
  json_DecodeStruct := decodeStruct;
  json_DecodeAny := fun _ _ e => (None, e);
  io_Copy := fun _ e => ((String.list_byte_of_string "error text", None), e);
  io_CopyTo := fun _ _ e => (None, e);
  body_Close := fun b e => (if Nat.eqb b 13 then Some (errorString "already closed") else None, e);
  time_Now := fun e => (clock e, e);
  http_Do := roundTrip
|}.

Definition world (now : Time) (script : list RoundTrip)
    (cells : list identityV2AuthenticatorImpl) : World :=
  {| env := {| clock := now; replies := script |}; trace := []; heap := cells |}.

Definition reply (code : Z) (status : string) (body : Handle) : Response :=
  {| StatusCode := code; Status := status;
     RespHeader := [("Content-Type", ["text/plain"])]; RespBody := body |}.

Definition ping : Request :=
  {| Method := "POST"; RequestURL := "http://host/ping"; ReqHeader := [];
     Body := BufferString "greetings"; ReqTimeout := defaultRestClientTimeout |}.

Definition client (its : list Interceptor) : Client :=
  fold_left AddInterceptor its
    {| BaseUrl := Some "http://host"; Timeout := 0%Z; interceptors := None |}.

(** Inputs of the examples. *)
Definition stopped : RoundTrip :=
  RedirectStopped (reply 302 "302 Found" 1) (errorString "stopped after 10 redirects").




Definition cell (tok : string) (exp : Time) : identityV2AuthenticatorImpl :=
  {| username := "user"; password := "pass"; apikey := "key";
     restClient_BaseUrl := Some "https://identity";
     restClient_Timeout := authTimeout;
     token := tok; tokenExpiration := exp |}.

Definition transport : NextCallback := fun newReq => doRequest newReq [].

(** The request that [authenticate] sends for [cell]. *)
Definition tokenPost : Request :=
  {| Method := "POST";
     RequestURL := "https://identity/v2.0/tokens";
     ReqHeader := [("Accept", ["application/json"]); ("Content-Type", ["application/json"])];
     Body := JsonBuffer (String.list_byte_of_string "apiKeyCredentials user key");
     ReqTimeout := authTimeout |}.

(** Two calls in a row through the same interceptor. *)
Definition twice (i : Interceptor) : M Result :=
  i ping transport ;; i ping transport.

Arguments world now%_Z script cells.
Arguments reply code%_Z status%_string body%_nat.
Arguments cell tok%_string exp%_Z.
Arguments Build_State clock%_Z replies.

(** A cell that has a password and no api key. *)
Definition passwordCell : identityV2AuthenticatorImpl :=
  {| username := "user"; password := "pass"; apikey := "";
     restClient_BaseUrl := Some "https://identity";
     restClient_Timeout := authTimeout;
     token := ""; tokenExpiration := zeroTime |}.


Definition cached : Interceptor :=
  answering (fun _ => ret (Some (reply 404 "404 Not Found" 9), None)).

End Script.

(** * Properties *)

Ltac run := unfold bind, ret, emit, liftEnv, readEnv, record, withEnv, panic; simpl.

Section Properties.

Context {host : Host}.

(** ** Equations of the chain *)

Lemma send_unfold (req : Request) (w : World) :
  http_DefaultClient_Do req w =
  Done (RoundTrip_pair (fst (http_Do req (env w))))
       {| env := snd (http_Do req (env w));
          trace := trace w ++ [EvSend req];
          heap := heap w |}.
Proof.
  unfold http_DefaultClient_Do, bind, emit, liftEnv, ret, record, withEnv; simpl.
  destruct (http_Do req (env w)) as [rt e']; reflexivity.
Qed.

Lemma doRequest_cons (i : Interceptor) (rest : list Interceptor) (req : Request) (w : World) :
  doRequest req (i :: rest) w =
  match i req (fun newReq => doRequest newReq rest) w with
  | Done r w' => Done (settle r) w'
  | Panic msg w' => Panic msg w'
  end.
Proof.
  simpl. unfold bind.
  destruct (i req _ w) as [[response [e|]] w'|msg w']; reflexivity.
Qed.

Lemma settle_idem (r : Result) : settle (settle r) = settle r.
Proof. destruct r as [resp [e|]]; reflexivity. Qed.

Lemma Front_AddInterceptor (c : Client) (it : Interceptor) :
  Front (AddInterceptor c it) = Front c ++ [it].
Proof. unfold Front, AddInterceptor; simpl. destruct (interceptors c); reflexivity. Qed.

Lemma Front_registration (its : list Interceptor) (c : Client) :
  Front (fold_left AddInterceptor its c) = Front c ++ its.
Proof.
  revert c; induction its as [|it its IH]; intros c; simpl.
  - now rewrite app_nil_r.
  - rewrite IH, Front_AddInterceptor, <- app_assoc. reflexivity.
Qed.

Lemma Header_Get_Set (h : Header) (key value : string) :
  Header_Get (Header_Set h key value) key = value.
Proof.
  unfold Header_Get, Header_Set; simpl.
  now rewrite String.eqb_refl.
Qed.

Lemma string_app_assoc (a b c : string) : ((a ++ b) ++ c = a ++ (b ++ c))%string.
Proof.
  induction a as [|x a IH]; [reflexivity|].
  change (String x (((a ++ b) ++ c))%string = String x ((a ++ (b ++ c)))%string).
  now rewrite IH.
Qed.

Lemma string_app_nil_r (a : string) : (a ++ "")%string = a.
Proof.
  induction a as [|x a IH]; [reflexivity|].
  change (String x (a ++ "")%string = String x a). now rewrite IH.
Qed.

Lemma stamps_header (labels : list string) (req : Request) :
  Header_Get (ReqHeader (stamps labels req)) "x-req-id" =
  (Header_Get (ReqHeader req) "x-req-id" ++ join labels)%string.
Proof.
  revert req; induction labels as [|l ls IH]; intros req.
  - simpl. now rewrite string_app_nil_r.
  - change (stamps (l :: ls) req) with (stamps ls (stamp l req)).
    rewrite IH. unfold stamp at 1. unfold setHeader; simpl ReqHeader.
    rewrite Header_Get_Set. apply string_app_assoc.
Qed.

Lemma tracing_chain (labels : list string) (req : Request) (w : World) :
  doRequest req (map tracing labels) w =
  Done (match labels with
        | [] => RoundTrip_pair (fst (http_Do (stamps labels req) (env w)))
        | _ => settle (RoundTrip_pair (fst (http_Do (stamps labels req) (env w))))
        end)
       {| env := snd (http_Do (stamps labels req) (env w));
          trace := trace w
                   ++ map (fun l => EvPrint ("OUT " ++ l)) labels
                   ++ [EvSend (stamps labels req)]
                   ++ map (fun l => EvPrint ("IN " ++ l)) (rev labels);
          heap := heap w |}.
Proof.
  revert req w; induction labels as [|l ls IH]; intros req w.
  - apply send_unfold.
  - change (map tracing (l :: ls)) with (tracing l :: map tracing ls).
    rewrite doRequest_cons.
    unfold tracing at 1. unfold bind at 1. unfold emit at 1.
    unfold bind at 1. rewrite IH.
    unfold bind, emit, ret, record; simpl.
    f_equal.
    + destruct ls; [reflexivity | apply settle_idem].
    + f_equal. rewrite map_app; simpl.
      rewrite <- !app_assoc. reflexivity.
Qed.


Lemma doRequest_settled (i : Interceptor) (rest : list Interceptor) (req : Request)
    (w w' : World) (r : Result) :
  doRequest req (i :: rest) w = Done r w' -> settle r = r.
Proof.
  rewrite doRequest_cons.
  destruct (i req _ w) as [r0 w0|msg w0]; [|discriminate].
  intros [= <- <-]. apply settle_idem.
Qed.


Lemma doRequest_delegating (pres : list (Request -> M Request)) (i : Interceptor)
    (rest : list Interceptor) (req : Request) (w : World) :
  doRequest req (map delegating pres ++ i :: rest) w =
  bind (prepare pres req) (fun req' => doRequest req' (i :: rest)) w.
Proof.
  revert req w; induction pres as [|pre pres IH]; intros req w.
  - reflexivity.
  - change (map delegating (pre :: pres) ++ i :: rest)
      with (delegating pre :: (map delegating pres ++ i :: rest)).
    rewrite doRequest_cons. unfold delegating at 1.
    change (prepare (pre :: pres) req) with (bind (pre req) (prepare pres)).
    unfold bind.
    destruct (pre req w) as [req1 w1|msg w1]; [|reflexivity].
    rewrite IH. unfold bind.
    destruct (prepare pres req1 w1) as [req2 w3|msg w3]; [|reflexivity].
    destruct (doRequest req2 (i :: rest) w3) as [r w2|msg w2] eqn:E; [|reflexivity].
    f_equal. now apply doRequest_settled in E.
Qed.

(** Interceptors that only use the host: when one of them answers by itself
    after others delegated, the trace and the authenticators are as before
    the chain: no call of the transport. *)
Lemma prepare_host_only (fs : list (Request -> Env -> Request * Env)) (req : Request)
    (w : World) :
  exists req' e',
    prepare (map (fun f r => liftEnv (f r)) fs) req w = Done req' (withEnv w e').
Proof.
  revert req w; induction fs as [|f fs IH]; intros req w.
  - exists req, (env w). destruct w; reflexivity.
  - simpl. unfold bind, liftEnv at 1.
    destruct (f req (env w)) as [req1 e1].
    destruct (IH req1 (withEnv w e1)) as (req' & e' & Hrun).
    exists req', e'. exact Hrun.
Qed.

Lemma short_circuit_host_only (fs : list (Request -> Env -> Request * Env))
    (body : Request -> Env -> Result * Env) (rest : list Interceptor)
    (req : Request) (w : World) :
  exists r e',
    doRequest req (map delegating (map (fun f r => liftEnv (f r)) fs)
                     ++ answering (fun r => liftEnv (body r)) :: rest) w
    = Done (settle r) (withEnv w e').
Proof.
  rewrite doRequest_delegating. unfold bind.
  destruct (prepare_host_only fs req w) as (req' & e' & ->).
  rewrite doRequest_cons. unfold answering, liftEnv; simpl.
  destruct (body req' e') as [r e2]. exists r, e2. reflexivity.
Qed.

(** ** The exchange around the chain *)

Lemma Exchange_after_build (c : Client) (method urlIn : string) (query : Values)
    (reqIn respOut : option Entity) (w : World) (reqUrl : Url)
    (bodyReader : BodyReader) (req : Request) :
  buildReqUrl c urlIn query = inl reqUrl ->
  buildBodyReader reqIn (env w) = inl bodyReader ->
  buildRequest (timeout c) method reqUrl bodyReader reqIn respOut = inl req ->
  Exchange c method urlIn query reqIn respOut w =
  match doRequest req (Front c) w with
  | Done (_, Some err) w1 =>
      Done (Some (Errorf_w "failed to send request: " err), respOut) w1
  | Done (Some resp, None) w1 => afterResponse respOut resp w1
  | Done (None, None) w1 => Panic nilDereference w1
  | Panic msg w1 => Panic msg w1
  end.
Proof.
  intros Hurl Hbody Hreq.
  unfold Exchange, ExchangeWithContext. rewrite Hurl.
  unfold bind at 1, readEnv. rewrite Hbody, Hreq.
  unfold bind at 1.
  destruct (doRequest req (Front c) w) as [[[resp|] [err|]] w1|msg w1]; reflexivity.
Qed.

Lemma Body_Close_unfold (body : Handle) (w : World) :
  Body_Close body w = Done (fst (body_Close body (env w))) (closed w body).
Proof.
  unfold Body_Close, closed; run.
  destruct (body_Close body (env w)); reflexivity.
Qed.

Lemma copyToBuffer_unfold (body : Handle) (w : World) :
  copyToBuffer body w =
  Done (fst (io_Copy body (env w)))
       {| env := snd (io_Copy body (env w));
          trace := trace w ++ [EvRead body];
          heap := heap w |}.
Proof.
  unfold copyToBuffer; run. destruct (io_Copy body (env w)); reflexivity.
Qed.

Lemma afterResponse_failure (respOut : option Entity) (resp : Response) (w : World) :
  (300 <= StatusCode resp)%Z ->
  afterResponse respOut resp w =
  Done (Some (FailedResponseError (StatusCode resp) (Status resp)
                (Some {| ContentType := Header_Get (RespHeader resp) headerContentType;
                         Content := AnyBytes (fst (fst (io_Copy (RespBody resp) (env w)))) |})),
        respOut)
       {| env := snd (body_Close (RespBody resp) (snd (io_Copy (RespBody resp) (env w))));
          trace := trace w ++ [EvRead (RespBody resp); EvClose (RespBody resp)];
          heap := heap w |}.
Proof.
  intros Hcode. unfold afterResponse.
  apply Z.leb_le in Hcode. rewrite Hcode.
  unfold buildFailedResponseError.
  unfold bind at 1. unfold bind at 1. rewrite copyToBuffer_unfold.
  unfold bind at 1. rewrite Body_Close_unfold.
  unfold ret, closed; simpl. rewrite <- app_assoc. reflexivity.
Qed.

Lemma processResponseContent_runs (respOut : Entity) (resp : Response) (w : World) :
  exists ro perr w2,
    processResponseContent respOut resp w = Done (ro, perr) w2
    /\ heap w2 = heap w
    /\ (trace w2 = trace w \/ trace w2 = trace w ++ [EvRead (RespBody resp)])
    /\ isFailedResponse perr = false
    /\ ContentType ro = ContentType respOut
    /\ (forall T v, Content respOut = AnyStruct T v -> exists v', Content ro = AnyStruct T v').
Proof.
  unfold processResponseContent.
  destruct respOut as [ct content]; simpl.
  destruct content as [|s|b|k h|T v|r]; simpl.
  all: try destruct k; simpl.
  all: try destruct (String.eqb ct JsonType); simpl.
  all: unfold copyToBuffer, copyToWriter, decodeInto; run.
  all: repeat match goal with
         | |- context [io_Copy ?b ?e] => destruct (io_Copy b e) as [[? [?|]] ?]; simpl
         | |- context [io_CopyTo ?x ?b ?e] => destruct (io_CopyTo x b e) as [[?|] ?]; simpl
         | |- context [json_DecodeAny ?b ?x ?e] =>
             destruct (json_DecodeAny b x e) as [[?|] ?]; simpl
         | |- context [json_DecodeStruct ?T ?b ?x ?e] =>
             destruct (json_DecodeStruct T b x e) as [[? [?|]] ?]; simpl
         end.
  all: do 3 eexists; split; [reflexivity|]; simpl.
  all: repeat split; auto; try discriminate.
  all: intros T0 v0 [=]; subst; eauto.
Qed.


Lemma afterResponse_no_entity (resp : Response) (w : World) :
  (StatusCode resp < 300)%Z ->
  afterResponse None resp w =
  Done (closeError (fst (body_Close (RespBody resp) (env w))), None)
       (closed w (RespBody resp)).
Proof.
  intros Hcode. unfold afterResponse.
  apply Z.leb_gt in Hcode. rewrite Hcode.
  unfold bind. rewrite Body_Close_unfold.
  destruct (fst (body_Close (RespBody resp) (env w))); reflexivity.
Qed.

Lemma afterResponse_entity (respOut ro : Entity) (perr : option error)
    (resp : Response) (w w2 : World) :
  (StatusCode resp < 300)%Z ->
  processResponseContent respOut resp w = Done (ro, perr) w2 ->
  afterResponse (Some respOut) resp w =
  Done (match perr with
        | Some err => Some err
        | None => closeError (fst (body_Close (RespBody resp) (env w2)))
        end, Some ro)
       (closed w2 (RespBody resp)).
Proof.
  intros Hcode Hproc. unfold afterResponse.
  apply Z.leb_gt in Hcode. rewrite Hcode.
  unfold bind at 1. rewrite Hproc. simpl.
  destruct perr as [err|]; unfold bind; rewrite Body_Close_unfold.
  - reflexivity.
  - destruct (fst (body_Close (RespBody resp) (env w2))); reflexivity.
Qed.


Lemma closes_close (body : Handle) : closes body [EvClose body] = 1.
Proof. unfold closes; simpl. now rewrite Nat.eqb_refl. Qed.

Lemma transportCalls_app (t u : list Event) :
  transportCalls (t ++ u) = transportCalls t + transportCalls u.
Proof. unfold transportCalls. now rewrite List.filter_app, length_app. Qed.

(** Whatever the path, the response is dealt with: the exchange returns, the
    last thing it did was closing the body, and it closed it once. *)
Lemma afterResponse_closes (respOut : option Entity) (resp : Response) (w : World) :
  exists err ro w2,
    afterResponse respOut resp w = Done (err, ro) w2
    /\ heap w2 = heap w
    /\ (exists mid, trace w2 = trace w ++ mid ++ [EvClose (RespBody resp)]
                    /\ closes (RespBody resp) mid = 0
                    /\ transportCalls mid = 0)
    /\ (forall ct T v, respOut = Some {| ContentType := ct; Content := AnyStruct T v |} ->
        exists v', ro = Some {| ContentType := ct; Content := AnyStruct T v' |}).
Proof.
  destruct (Z_lt_le_dec (StatusCode resp) 300) as [Hlt|Hge].
  - destruct respOut as [respOut|].
    + destruct (processResponseContent_runs respOut resp w)
        as (ro & perr & w2 & Hrun & Hheap & Htrace & _ & Hct & Hshape).
      rewrite (afterResponse_entity _ _ _ _ _ _ Hlt Hrun).
      do 3 eexists; split; [reflexivity|]. simpl.
      split; [assumption|]. split.
      * destruct Htrace as [-> | ->].
        -- exists []; repeat split; reflexivity.
        -- exists [EvRead (RespBody resp)]. rewrite <- app_assoc. repeat split; reflexivity.
      * intros ct T v [= ->]. destruct (Hshape T v eq_refl) as [v' Hv'].
        exists v'. destruct ro as [ct' content']; simpl in *. now subst.
    + rewrite (afterResponse_no_entity _ _ Hlt).
      do 3 eexists; split; [reflexivity|]. simpl.
      split; [reflexivity|]. split; [|discriminate].
      exists []; repeat split; reflexivity.
  - rewrite (afterResponse_failure _ _ _ Hge).
    do 3 eexists; split; [reflexivity|]. simpl.
    split; [reflexivity|]. split.
    + exists [EvRead (RespBody resp)]. repeat split; reflexivity.
    + intros ct T v ->. eauto.
Qed.

Lemma afterResponse_not_failed (respOut : option Entity) (resp : Response) (w w2 : World)
    (err : option error) (ro : option Entity) :
  (StatusCode resp < 300)%Z ->
  afterResponse respOut resp w = Done (err, ro) w2 ->
  isFailedResponse err = false.
Proof.
  intros Hlt. destruct respOut as [respOut|].
  - destruct (processResponseContent_runs respOut resp w)
      as (ro' & perr & w' & Hrun & _ & _ & Hnf & _).
    rewrite (afterResponse_entity _ _ _ _ _ _ Hlt Hrun).
    intros [= <- _ _]. destruct perr; [assumption|].
    now destruct (fst (body_Close (RespBody resp) (env w'))).
  - rewrite (afterResponse_no_entity _ _ Hlt). intros [= <- _ _].
    now destruct (fst (body_Close (RespBody resp) (env w))).
Qed.


(** An exchange on a client without interceptors: it returns, leaves the
    authenticators alone, and either fails before the transport is reached or
    calls the transport once, with the request it built. *)
Lemma Exchange_plain (c : Client) (method urlIn : string) (query : Values)
    (reqIn respOut : option Entity) (w : World) :
  Front c = [] ->
  exists err ro w2,
    Exchange c method urlIn query reqIn respOut w = Done (err, ro) w2
    /\ heap w2 = heap w
    /\ (forall ct T v, respOut = Some {| ContentType := ct; Content := AnyStruct T v |} ->
        exists v', ro = Some {| ContentType := ct; Content := AnyStruct T v' |})
    /\ ((trace w2 = trace w /\ err <> None)
        \/ exists reqUrl bodyReader req rest,
             buildReqUrl c urlIn query = inl reqUrl
             /\ buildBodyReader reqIn (env w) = inl bodyReader
             /\ buildRequest (timeout c) method reqUrl bodyReader reqIn respOut = inl req
             /\ trace w2 = trace w ++ EvSend req :: rest
             /\ transportCalls rest = 0).
Proof.
  intros Hfront.
  destruct (buildReqUrl c urlIn query) as [reqUrl|e] eqn:Hurl.
  2:{ exists (Some e), respOut, w. unfold Exchange, ExchangeWithContext. rewrite Hurl.
      split; [reflexivity|]. split; [reflexivity|]. split; [eauto|].
      left; split; [reflexivity|discriminate]. }
  destruct (buildBodyReader reqIn (env w)) as [bodyReader|e] eqn:Hbody.
  2:{ exists (Some e), respOut, w. unfold Exchange, ExchangeWithContext. rewrite Hurl.
      unfold bind, readEnv. rewrite Hbody.
      split; [reflexivity|]. split; [reflexivity|]. split; [eauto|].
      left; split; [reflexivity|discriminate]. }
  destruct (buildRequest (timeout c) method reqUrl bodyReader reqIn respOut)
    as [req|e] eqn:Hreq.
  2:{ exists (Some e), respOut, w. unfold Exchange, ExchangeWithContext. rewrite Hurl.
      unfold bind, readEnv. rewrite Hbody, Hreq.
      split; [reflexivity|]. split; [reflexivity|]. split; [eauto|].
      left; split; [reflexivity|discriminate]. }
  rewrite (Exchange_after_build _ _ _ _ _ _ _ _ _ _ Hurl Hbody Hreq).
  rewrite Hfront. change (doRequest req []) with (http_DefaultClient_Do req).
  rewrite send_unfold.
  destruct (fst (http_Do req (env w))) as [resp|e|resp e]; simpl.
  - match goal with |- context [afterResponse respOut resp ?w1] =>
      destruct (afterResponse_closes respOut resp w1)
        as (err & ro & w2 & Hrun & Hheap & (mid & Htrace & _ & Hmid) & Hshape)
    end.
    exists err, ro, w2. rewrite Hrun. simpl in *.
    split; [reflexivity|]. split; [assumption|]. split; [assumption|]. right.
    exists reqUrl, bodyReader, req, (mid ++ [EvClose (RespBody resp)]).
    repeat split; auto.
    + rewrite Htrace, <- app_assoc. reflexivity.
    + rewrite transportCalls_app, Hmid. reflexivity.
  - do 3 eexists; split; [reflexivity|]; simpl.
    split; [reflexivity|]. split; [eauto|]. right.
    exists reqUrl, bodyReader, req, []. repeat split; auto.
  - do 3 eexists; split; [reflexivity|]; simpl.
    split; [reflexivity|]. split; [eauto|]. right.
    exists reqUrl, bodyReader, req, []. repeat split; auto.
Qed.

(** ** The authenticator *)

Lemma buildRequest_Body (t : Z) (method : string) (reqUrl : Url) (bodyReader : BodyReader)
    (reqIn respOut : option Entity) (req : Request) :
  buildRequest t method reqUrl bodyReader reqIn respOut = inl req -> Body req = bodyReader.
Proof.
  unfold buildRequest.
  destruct (http_NewRequest_check method (url_String reqUrl)); [discriminate|].
  intros [= <-].
  destruct reqIn as [reqIn|], respOut as [respOut|]; simpl;
    repeat match goal with
      | |- context [if ?b then _ else _] => destruct b; simpl
      end; reflexivity.
Qed.

Lemma buildBodyReader_credentials (a : identityV2AuthenticatorImpl) (e : Env) :
  buildBodyReader (Some (NewJsonEntity (credentials a))) e =
  match json_Encode (credentials a) e with
  | inr err => inr (Errorf_w "failed to encode body: " err)
  | inl buffer => inl (JsonBuffer buffer)
  end.
Proof. unfold credentials. destruct (negb _); reflexivity. Qed.

(** [authenticate] returns.  It calls the transport at most once, with the
    encoded credentials as body, and exactly once when it succeeds; it
    stores the token and its expiration when the nested exchange succeeded,
    and leaves the cell alone when it failed. *)
Lemma authenticate_runs (p : nat) (a : identityV2AuthenticatorImpl) (w : World) :
  heap w !! p = Some a ->
  exists err ro w2,
    tokenRequest a w = Done (err, ro) w2
    /\ heap w2 = heap w
    /\ transportCalls (trace w2) <= S (transportCalls (trace w))
    /\ (trace w2 = trace w
        \/ exists req rest buffer,
             trace w2 = trace w ++ EvSend req :: rest
             /\ transportCalls rest = 0
             /\ json_Encode (credentials a) (env w) = inl buffer
             /\ Body req = JsonBuffer buffer)
    /\ match err with
       | Some e =>
           authenticate p w = Done (Some (Errorf_w "failed to issue token request: " e)) w2
       | None =>
           transportCalls (trace w2) = S (transportCalls (trace w))
           /\ exists resp,
               ro = Some (NewJsonEntity (AnyStruct TAuthResp resp))
               /\ authenticate p w = Done None (stored p a resp w2)
       end.
Proof.
  intros Hp.
  destruct (Exchange_plain (restClient a) "POST" "/v2.0/tokens" []
              (Some (NewJsonEntity (credentials a)))
              (Some (NewJsonEntity (AnyStruct TAuthResp (zeroStruct TAuthResp)))) w eq_refl)
    as (err & ro & w2 & Hrun & Hheap & Hshape & Htrace).
  exists err, ro, w2. split; [exact Hrun|]. split; [exact Hheap|].
  assert (Hcalls : transportCalls (trace w2) <= S (transportCalls (trace w))
                   /\ (err = None -> transportCalls (trace w2) = S (transportCalls (trace w)))).
  { destruct Htrace as [[-> Herr]|(reqUrl & br & req & rest & _ & _ & _ & -> & Hrest)].
    - split; [lia|]. intros ->. now destruct Herr.
    - rewrite transportCalls_app.
      change (EvSend req :: rest) with ([EvSend req] ++ rest).
      rewrite transportCalls_app, Hrest. simpl. split; intros; lia. }
  destruct Hcalls as [Hle Hone]. split; [exact Hle|]. split.
  { destruct Htrace as [[-> _]|(reqUrl & br & req & rest & _ & Hbody & Hreq & -> & Hrest)];
      [now left|right].
    rewrite buildBodyReader_credentials in Hbody.
    destruct (json_Encode (credentials a) (env w)) as [buffer|] eqn:Henc; [|discriminate].
    injection Hbody as <-. apply buildRequest_Body in Hreq.
    exists req, rest, buffer. auto. }
  assert (Hauth : authenticate p w =
                  match err with
                  | Some e => Done (Some (Errorf_w "failed to issue token request: " e)) w2
                  | None =>
                      bind (assignToken p (Token_Id (respAfter (zeroStruct TAuthResp) ro))
                              (Token_Expires (respAfter (zeroStruct TAuthResp) ro)))
                           (fun _ => ret None) w2
                  end).
  { unfold authenticate. unfold bind at 1. unfold deref. rewrite Hp.
    unfold bind at 1. rewrite Hrun. simpl. destruct err; reflexivity. }
  rewrite Hauth. destruct err as [e|]; [reflexivity|].
  split; [auto|].
  destruct (Hshape _ _ _ eq_refl) as [resp ->].
  exists resp. split; [reflexivity|].
  unfold bind, assignToken, ret, stored; simpl. rewrite Hheap, Hp. reflexivity.
Qed.

Lemma stored_lookup (p : nat) (a : identityV2AuthenticatorImpl) (resp : identityAuthResp)
    (w : World) :
  heap w !! p = Some a ->
  heap (stored p a resp w) !! p = Some (withToken a (Token_Id resp) (Token_Expires resp)).
Proof.
  intros Hp. unfold stored; simpl.
  apply list_lookup_insert_eq. eapply lookup_lt_Some; eassumption.
Qed.

Lemma intercept_fresh (p : nat) (a : identityV2AuthenticatorImpl) (req : Request)
    (next : NextCallback) (w : World) :
  heap w !! p = Some a ->
  Time_After (fst (time_Now (env w))) (tokenExpiration a) = false ->
  intercept p req next w =
  next (setHeader req "x-auth-token" (token a)) (withEnv w (snd (time_Now (env w)))).
Proof.
  intros Hp Hafter. unfold intercept. unfold bind at 1. unfold liftEnv.
  destruct (time_Now (env w)) as [now e1]; simpl in *.
  unfold bind at 1. unfold deref at 1. simpl. rewrite Hp, Hafter.
  unfold bind at 1. unfold ret at 1. unfold bind, deref; simpl. rewrite Hp. reflexivity.
Qed.

Lemma intercept_expired (p : nat) (a : identityV2AuthenticatorImpl) (req : Request)
    (next : NextCallback) (w : World) :
  heap w !! p = Some a ->
  Time_After (fst (time_Now (env w))) (tokenExpiration a) = true ->
  intercept p req next w =
  match authenticate p (withEnv w (snd (time_Now (env w)))) with
  | Done (Some err) w2 => Done (None, Some err) w2
  | Done None w2 =>
      match heap w2 !! p with
      | Some a2 => next (setHeader req "x-auth-token" (token a2)) w2
      | None => Panic nilDereference w2
      end
  | Panic msg w2 => Panic msg w2
  end.
Proof.
  intros Hp Hafter. unfold intercept. unfold bind at 1. unfold liftEnv.
  destruct (time_Now (env w)) as [now e1]; simpl in *.
  unfold bind at 1. unfold deref at 1. simpl. rewrite Hp, Hafter.
  unfold bind at 1.
  destruct (authenticate p (withEnv w e1)) as [[err|] w2|msg w2]; try reflexivity.
  unfold bind, deref. destruct (heap w2 !! p); reflexivity.
Qed.

(** ** The claims on the chain and the exchange *)

(** C1.  The chain on an empty list is the transport call, whose result it
    returns as it is.  On a list with head [i] it calls [i] with the request
    and with the chain on the rest as continuation.  Interceptors are kept
    in the order of their registration, so that labelled interceptors print
    their way in in that order, the transport is called with the request as
    they stamped it one after the other, and they print their way out in
    the reverse order. *)
Theorem doRequest_chain_order :
  (forall req w,
      doRequest req [] w =
      Done (RoundTrip_pair (fst (http_Do req (env w))))
           {| env := snd (http_Do req (env w));
              trace := trace w ++ [EvSend req];
              heap := heap w |})
  /\ (forall i rest req w,
         doRequest req (i :: rest) w =
         match i req (fun newReq => doRequest newReq rest) w with
         | Done (_, Some err) w' => Done (None, Some err) w'
         | Done (response, None) w' => Done (response, None) w'
         | Panic msg w' => Panic msg w'
         end)
  /\ (forall its, Front (fold_left AddInterceptor its New) = its)
  /\ (forall labels req w,
         doRequest req (map tracing labels) w =
         Done (match labels with
               | [] => RoundTrip_pair (fst (http_Do (stamps labels req) (env w)))
               | _ => settle (RoundTrip_pair (fst (http_Do (stamps labels req) (env w))))
               end)
              {| env := snd (http_Do (stamps labels req) (env w));
                 trace := trace w
                          ++ map (fun l => EvPrint ("OUT " ++ l)) labels
                          ++ [EvSend (stamps labels req)]
                          ++ map (fun l => EvPrint ("IN " ++ l)) (rev labels);
                 heap := heap w |})
  /\ (forall labels req,
         Header_Get (ReqHeader (stamps labels req)) "x-req-id" =
         (Header_Get (ReqHeader req) "x-req-id" ++ join labels)%string).
Proof.
  split; [exact send_unfold|].
  split.
  { intros i rest req w. rewrite doRequest_cons.
    destruct (i req _ w) as [[response [err|]] w'|msg w']; reflexivity. }
  split; [intros its; apply (Front_registration its New)|].
  split; [exact tracing_chain | exact stamps_header].
Qed.



(** C3.  Once the chain returned a response and no error: with a status
    code of 300 or more [Exchange] reads the body, closes it and returns a
    *FailedResponseError with the status code, the status line and an entity
    of the response's Content-Type header and the bytes read; with a status
    code below 300 it returns, and what it returns is never a
    *FailedResponseError; without a response entity it returns the outcome
    of closing the body. *)
Theorem Exchange_status_classification (c : Client) (method urlIn : string)
    (query : Values) (reqIn respOut : option Entity) (reqUrl : Url)
    (bodyReader : BodyReader) (req : Request) (w w1 : World) (resp : Response) :
  buildReqUrl c urlIn query = inl reqUrl ->
  buildBodyReader reqIn (env w) = inl bodyReader ->
  buildRequest (timeout c) method reqUrl bodyReader reqIn respOut = inl req ->
  doRequest req (Front c) w = Done (Some resp, None) w1 ->
  ((300 <= StatusCode resp)%Z ->
   Exchange c method urlIn query reqIn respOut w =
   Done (Some (FailedResponseError (StatusCode resp) (Status resp)
                 (Some {| ContentType := Header_Get (RespHeader resp) headerContentType;
                          Content :=
                            AnyBytes (fst (fst (io_Copy (RespBody resp) (env w1)))) |})),
         respOut)
        {| env := snd (body_Close (RespBody resp) (snd (io_Copy (RespBody resp) (env w1))));
           trace := trace w1 ++ [EvRead (RespBody resp); EvClose (RespBody resp)];
           heap := heap w1 |})
  /\ ((StatusCode resp < 300)%Z ->
      exists err ro w2,
        Exchange c method urlIn query reqIn respOut w = Done (err, ro) w2
        /\ isFailedResponse err = false)
  /\ ((StatusCode resp < 300)%Z -> respOut = None ->
      Exchange c method urlIn query reqIn respOut w =
      Done (closeError (fst (body_Close (RespBody resp) (env w1))), None)
           (closed w1 (RespBody resp))).
Proof.
  intros Hurl Hbody Hreq Hchain.
  rewrite (Exchange_after_build _ _ _ _ _ _ _ _ _ _ Hurl Hbody Hreq), Hchain.
  split; [|split].
  - apply afterResponse_failure.
  - intros Hlt.
    destruct (afterResponse_closes respOut resp w1) as (err & ro & w2 & Hrun & _).
    exists err, ro, w2. split; [exact Hrun|].
    eapply afterResponse_not_failed; eassumption.
  - intros Hlt ->. now apply afterResponse_no_entity.
Qed.

(** C8.  Once the chain returned a response and no error, [Exchange] closes
    the body of the response before it returns, on every path, and a failure
    to close is returned only where no error came before: on the failed
    response path and when processing the content failed, the error of
    [Close] is dropped; on the success path it is returned wrapped as
    "failed to close response body: ". *)
Theorem Exchange_closes_body (c : Client) (method urlIn : string)
    (query : Values) (reqIn respOut : option Entity) (reqUrl : Url)
    (bodyReader : BodyReader) (req : Request) (w w1 : World) (resp : Response) :
  buildReqUrl c urlIn query = inl reqUrl ->
  buildBodyReader reqIn (env w) = inl bodyReader ->
  buildRequest (timeout c) method reqUrl bodyReader reqIn respOut = inl req ->
  doRequest req (Front c) w = Done (Some resp, None) w1 ->
  ((300 <= StatusCode resp)%Z ->
   exists e ent,
     Exchange c method urlIn query reqIn respOut w =
     Done (Some (FailedResponseError (StatusCode resp) e ent), respOut)
          {| env := snd (body_Close (RespBody resp) (snd (io_Copy (RespBody resp) (env w1))));
             trace := trace w1 ++ [EvRead (RespBody resp); EvClose (RespBody resp)];
             heap := heap w1 |})
  /\ ((StatusCode resp < 300)%Z -> respOut = None ->
      Exchange c method urlIn query reqIn respOut w =
      Done (closeError (fst (body_Close (RespBody resp) (env w1))), None)
           (closed w1 (RespBody resp)))
  /\ ((StatusCode resp < 300)%Z ->
      forall entity entity' perr w2,
        respOut = Some entity ->
        processResponseContent entity resp w1 = Done (entity', perr) w2 ->
        Exchange c method urlIn query reqIn respOut w =
        Done (match perr with
              | Some err => Some err
              | None => closeError (fst (body_Close (RespBody resp) (env w2)))
              end, Some entity')
             (closed w2 (RespBody resp)))
  /\ (exists err ro w2 mid,
         Exchange c method urlIn query reqIn respOut w = Done (err, ro) w2
         /\ trace w2 = trace w1 ++ mid ++ [EvClose (RespBody resp)]
         /\ closes (RespBody resp) mid = 0).
Proof.
  intros Hurl Hbody Hreq Hchain.
  rewrite (Exchange_after_build _ _ _ _ _ _ _ _ _ _ Hurl Hbody Hreq), Hchain.
  split; [|split; [|split]].
  - intros Hge. rewrite (afterResponse_failure _ _ _ Hge). eauto.
  - intros Hlt ->. now apply afterResponse_no_entity.
  - intros Hlt entity entity' perr w2 -> Hrun. now apply afterResponse_entity.
  - destruct (afterResponse_closes respOut resp w1)
      as (err & ro & w2 & Hrun & _ & (mid & Htrace & Hmid & _) & _).
    exists err, ro, w2, mid. auto.
Qed.

(** C5.  The body of the request follows the shape of the entity: none for a
    nil entity; the string, the bytes, the reader as they are; otherwise,
    for a JSON entity with a content that is not nil, the JSON encoding of
    the content (or the error of the encoder); otherwise the unsupported
    entity error.  [Exchange] returns that error without touching the world;
    the one thing it does before building the body is resolving the URL,
    whose error it returns first. *)
Theorem buildBodyReader_shape_dispatch (e : Env) :
  buildBodyReader None e = inl NilReader
  /\ (forall ct s,
         buildBodyReader (Some {| ContentType := ct; Content := AnyString s |}) e
         = inl (BufferString s))
  /\ (forall ct b,
         buildBodyReader (Some {| ContentType := ct; Content := AnyBytes b |}) e
         = inl (BufferBytes b))
  /\ (forall ct k h, isReader k = true ->
         buildBodyReader (Some {| ContentType := ct; Content := AnyStream k h |}) e
         = inl (PassReader h))
  /\ (forall reqIn,
         asString (Content reqIn) = None -> asBytes (Content reqIn) = None ->
         asReader (Content reqIn) = None ->
         ContentType reqIn = JsonType -> Content reqIn <> AnyNil ->
         buildBodyReader (Some reqIn) e =
         match json_Encode (Content reqIn) e with
         | inl buffer => inl (JsonBuffer buffer)
         | inr err => inr (Errorf_w "failed to encode body: " err)
         end)
  /\ (forall reqIn,
         asString (Content reqIn) = None -> asBytes (Content reqIn) = None ->
         asReader (Content reqIn) = None ->
         ContentType reqIn <> JsonType \/ Content reqIn = AnyNil ->
         buildBodyReader (Some reqIn) e = inr unsupportedRequestEntity)
  /\ (forall c method urlIn query reqIn respOut w,
         env w = e ->
         buildBodyReader reqIn e = inr unsupportedRequestEntity ->
         Exchange c method urlIn query reqIn respOut w
         = Done (Some (match buildReqUrl c urlIn query with
                       | inl _ => unsupportedRequestEntity
                       | inr err => err
                       end), respOut) w).
Proof.
  split; [reflexivity|]. split; [reflexivity|]. split; [reflexivity|].
  split; [intros ct k h Hk; unfold buildBodyReader; simpl; now rewrite Hk|].
  split; [|split].
  - intros reqIn Hs Hb Hr Hct Hnil. unfold buildBodyReader.
    rewrite Hs, Hb, Hr, Hct. simpl.
    destruct (Content reqIn); try contradiction; simpl;
      now destruct (json_Encode _ e).
  - intros reqIn Hs Hb Hr Hno. unfold buildBodyReader.
    rewrite Hs, Hb, Hr. destruct Hno as [Hct| ->].
    + apply String.eqb_neq in Hct. now rewrite Hct.
    + now rewrite andb_false_r.
  - intros c method urlIn query reqIn respOut w <- Hbody.
    unfold Exchange, ExchangeWithContext.
    destruct (buildReqUrl c urlIn query); [|reflexivity].
    unfold bind, readEnv. now rewrite Hbody.
Qed.

(** C9.  A JSON entity whose content is nil is an unsupported entity: no
    body encodes it, and [Exchange] returns the error without touching the
    world (after the error of resolving the URL, if there is one).  A body
    is JSON encoded only for a JSON entity whose content is not nil and is
    not a string, not a byte sequence and not a reader. *)
Theorem json_nil_content_unsupported (e : Env) :
  buildBodyReader (Some (NewJsonEntity AnyNil)) e = inr unsupportedRequestEntity
  /\ (forall reqIn buffer,
         buildBodyReader (Some reqIn) e = inl (JsonBuffer buffer) ->
         ContentType reqIn = JsonType /\ Content reqIn <> AnyNil
         /\ asString (Content reqIn) = None /\ asBytes (Content reqIn) = None
         /\ asReader (Content reqIn) = None
         /\ json_Encode (Content reqIn) e = inl buffer)
  /\ (forall c method urlIn query respOut w,
         env w = e ->
         Exchange c method urlIn query (Some (NewJsonEntity AnyNil)) respOut w
         = Done (Some (match buildReqUrl c urlIn query with
                       | inl _ => unsupportedRequestEntity
                       | inr err => err
                       end), respOut) w).
Proof.
  split; [reflexivity|]. split.
  - intros reqIn buffer. unfold buildBodyReader.
    destruct (asString (Content reqIn)); [discriminate|].
    destruct (asBytes (Content reqIn)); [discriminate|].
    destruct (asReader (Content reqIn)); [discriminate|].
    destruct (String.eqb (ContentType reqIn) JsonType) eqn:Hct; [|discriminate].
    destruct (isNil (Content reqIn)) eqn:Hnil; [discriminate|]. simpl.
    destruct (json_Encode (Content reqIn) e) eqn:Henc; [|discriminate].
    intros [= <-]. apply String.eqb_eq in Hct.
    repeat split; auto. intros Heq. now rewrite Heq in Hnil.
  - intros c method urlIn query respOut w <-.
    unfold Exchange, ExchangeWithContext.
    destruct (buildReqUrl c urlIn query); reflexivity.
Qed.

(** ** The claims on the authenticator *)

(** C2, as the code has it.  [intercept] refreshes the token exactly when
    the clock reads strictly later than the cached expiration.  Up to and
    at the expiration it calls [next] with the cached token, in a world in
    which nothing but the clock was touched: no exchange with the identity
    endpoint.  Past it, it runs [authenticate] first, which calls the
    transport at most once, and once when it succeeds; [next] is called
    after that, with the new token.  The expiration of a cell that never
    held a token is the zero time, which every later clock reading is
    past. *)
Theorem intercept_refresh_iff_strictly_after (p : nat) (a : identityV2AuthenticatorImpl)
    (req : Request) (next : NextCallback) (w : World) :
  heap w !! p = Some a ->
  ((fst (time_Now (env w)) <= tokenExpiration a)%Z ->
   intercept p req next w =
   next (setHeader req "x-auth-token" (token a)) (withEnv w (snd (time_Now (env w)))))
  /\ ((tokenExpiration a < fst (time_Now (env w)))%Z ->
      exists err w2,
        authenticate p (withEnv w (snd (time_Now (env w)))) = Done err w2
        /\ transportCalls (trace w2) <= S (transportCalls (trace w))
        /\ match err with
           | Some e => intercept p req next w = Done (None, Some e) w2
           | None =>
               transportCalls (trace w2) = S (transportCalls (trace w))
               /\ exists resp,
                   heap w2 !! p = Some (withToken a (Token_Id resp) (Token_Expires resp))
                   /\ intercept p req next w =
                      next (setHeader req "x-auth-token" (Token_Id resp)) w2
           end)
  /\ (tokenExpiration a = zeroTime -> (zeroTime < fst (time_Now (env w)))%Z ->
      Time_After (fst (time_Now (env w))) (tokenExpiration a) = true).
Proof.
  intros Hp. split; [|split].
  - intros Hle. apply intercept_fresh; [assumption|].
    unfold Time_After. apply Z.ltb_ge. exact Hle.
  - intros Hlt.
    assert (Hafter : Time_After (fst (time_Now (env w))) (tokenExpiration a) = true)
      by (unfold Time_After; apply Z.ltb_lt; exact Hlt).
    rewrite (intercept_expired _ _ _ _ _ Hp Hafter).
    destruct (authenticate_runs p a (withEnv w (snd (time_Now (env w)))) Hp)
      as (err & ro & w2 & _ & Hheap & Hle & _ & Hres).
    destruct err as [e|].
    + eexists _, w2. rewrite Hres. split; [reflexivity|]. split; [exact Hle|reflexivity].
    + destruct Hres as (Hone & resp & _ & Hauth).
      exists None, (stored p a resp w2). rewrite Hauth.
      split; [reflexivity|]. split; [exact Hle|]. split; [exact Hone|].
      exists resp.
      assert (Hcell : heap (stored p a resp w2) !! p
                      = Some (withToken a (Token_Id resp) (Token_Expires resp))).
      { apply stored_lookup. rewrite Hheap. exact Hp. }
      split; [exact Hcell|]. rewrite Hcell. reflexivity.
  - intros -> Hlt. unfold Time_After. apply Z.ltb_lt. exact Hlt.
Qed.

(** C6.  When the clock is past the expiration, [intercept] runs the nested
    exchange.  If it fails, [intercept] returns its error wrapped as
    "failed to issue token request: " with a nil response, whatever [next]
    is, and the cell keeps its token and its expiration.  If it succeeds,
    the token and the expiration decoded from the response are stored in the
    cell, and then [next] is called with that token in the header. *)
Theorem intercept_failed_refresh_blocks_request (p : nat)
    (a : identityV2AuthenticatorImpl) (req : Request) (next : NextCallback) (w : World) :
  heap w !! p = Some a ->
  Time_After (fst (time_Now (env w))) (tokenExpiration a) = true ->
  exists err ro w2,
    tokenRequest a (withEnv w (snd (time_Now (env w)))) = Done (err, ro) w2
    /\ match err with
       | Some e =>
           intercept p req next w
           = Done (None, Some (Errorf_w "failed to issue token request: " e)) w2
           /\ (forall next', intercept p req next' w = intercept p req next w)
           /\ heap w2 = heap w
           /\ heap w2 !! p = Some a
       | None =>
           exists resp,
             ro = Some (NewJsonEntity (AnyStruct TAuthResp resp))
             /\ intercept p req next w
                = next (setHeader req "x-auth-token" (Token_Id resp)) (stored p a resp w2)
             /\ heap (stored p a resp w2) !! p
                = Some (withToken a (Token_Id resp) (Token_Expires resp))
       end.
Proof.
  intros Hp Hafter.
  destruct (authenticate_runs p a (withEnv w (snd (time_Now (env w)))) Hp)
    as (err & ro & w2 & Hrun & Hheap & _ & _ & Hres).
  exists err, ro, w2. split; [exact Hrun|].
  destruct err as [e|].
  - assert (Hall : forall next', intercept p req next' w
                     = Done (None, Some (Errorf_w "failed to issue token request: " e)) w2).
    { intros next'. rewrite (intercept_expired _ _ _ _ _ Hp Hafter), Hres. reflexivity. }
    split; [apply Hall|]. split; [intros next'; now rewrite !Hall|].
    split; [exact Hheap|]. rewrite Hheap. exact Hp.
  - destruct Hres as (_ & resp & Hro & Hauth).
    exists resp. split; [exact Hro|].
    assert (Hcell : heap (stored p a resp w2) !! p
                    = Some (withToken a (Token_Id resp) (Token_Expires resp))).
    { apply stored_lookup. rewrite Hheap. exact Hp. }
    split; [|exact Hcell].
    rewrite (intercept_expired _ _ _ _ _ Hp Hafter), Hauth, Hcell. reflexivity.
Qed.


End Properties.

(** * Further properties of the client *)

Section Further.

Context {host : Host}.

(** ** Headers *)

Lemma find_filter_other (h : Header) (k k' : string) :
  k <> k' ->
  find (fun p => String.eqb (fst p) k)
       (List.filter (fun p => negb (String.eqb (fst p) k')) h)
  = find (fun p => String.eqb (fst p) k) h.
Proof.
  intros Hne. induction h as [|[key vs] h IH]; [reflexivity|]. simpl.
  destruct (String.eqb key k') eqn:Hk'; simpl.
  - apply String.eqb_eq in Hk'. subst key.
    destruct (String.eqb k' k) eqn:Hk; [|exact IH].
    apply String.eqb_eq in Hk. congruence.
  - destruct (String.eqb key k); [reflexivity|exact IH].
Qed.

Lemma Header_Get_Set_other (h : Header) (key key' value : string) :
  CanonicalHeaderKey key <> CanonicalHeaderKey key' ->
  Header_Get (Header_Set h key' value) key = Header_Get h key.
Proof.
  intros Hne. unfold Header_Get, Header_Set. simpl.
  destruct (String.eqb (CanonicalHeaderKey key') (CanonicalHeaderKey key)) eqn:Hk.
  - apply String.eqb_eq in Hk. congruence.
  - now rewrite find_filter_other.
Qed.

Lemma Header_Get_nil (key : string) : Header_Get [] key = "".
Proof. reflexivity. Qed.

(** ** The request that is built *)

(** X1.  The request that [buildRequest] returns has the body, the deadline
    and the URL text it was given, GET for an empty method, the type of the
    request entity as Content-Type and the type of the response entity as
    Accept; a header is absent where the entity is nil or has no type. *)
Theorem buildRequest_fields (t : Z) (method : string) (reqUrl : Url)
    (bodyReader : BodyReader) (reqIn respOut : option Entity) (req : Request) :
  CanonicalHeaderKey headerContentType <> CanonicalHeaderKey headerAccept ->
  buildRequest t method reqUrl bodyReader reqIn respOut = inl req ->
  Body req = bodyReader
  /\ ReqTimeout req = t
  /\ RequestURL req = url_String reqUrl
  /\ Method req = (if String.eqb method "" then "GET" else method)
  /\ Header_Get (ReqHeader req) headerContentType
     = match reqIn with Some reqIn => ContentType reqIn | None => "" end
  /\ Header_Get (ReqHeader req) headerAccept
     = match respOut with Some respOut => ContentType respOut | None => "" end.
Proof.
  intros Hkeys. unfold buildRequest.
  destruct (http_NewRequest_check method (url_String reqUrl)); [discriminate|].
  intros [= <-].
  assert (Hsym : CanonicalHeaderKey headerAccept <> CanonicalHeaderKey headerContentType)
    by congruence.
  destruct reqIn as [[ctIn cIn]|], respOut as [[ctOut cOut]|]; simpl;
    repeat match goal with
      | |- context [String.eqb ?a ""] =>
          let E := fresh "E" in
          destruct (String.eqb a "") eqn:E; simpl;
          [apply String.eqb_eq in E; subst|]
      end;
    repeat split; try reflexivity;
    rewrite ?Header_Get_Set, ?(Header_Get_Set_other _ _ _ _ Hkeys),
      ?(Header_Get_Set_other _ _ _ _ Hsym), ?Header_Get_Set; try reflexivity.
Qed.

(** ** Exchange: errors, panics and the response entity *)

(** X2.  An error of building the request (the URL, the body, the request
    itself) is what [Exchange] returns, as it is, in the world it was called
    in: no interceptor has run and the transport was not called. *)
Theorem Exchange_build_errors_precede_chain (c : Client) (method urlIn : string)
    (query : Values) (reqIn respOut : option Entity) (w : World) :
  (forall err, buildReqUrl c urlIn query = inr err ->
     Exchange c method urlIn query reqIn respOut w = Done (Some err, respOut) w)
  /\ (forall reqUrl err,
         buildReqUrl c urlIn query = inl reqUrl ->
         buildBodyReader reqIn (env w) = inr err ->
         Exchange c method urlIn query reqIn respOut w = Done (Some err, respOut) w)
  /\ (forall reqUrl bodyReader err,
         buildReqUrl c urlIn query = inl reqUrl ->
         buildBodyReader reqIn (env w) = inl bodyReader ->
         http_NewRequest_check method (url_String reqUrl) = Some err ->
         Exchange c method urlIn query reqIn respOut w
         = Done (Some (Errorf_w "failed to setup request: " err), respOut) w).
Proof.
  unfold Exchange, ExchangeWithContext. split; [|split].
  - intros err ->. reflexivity.
  - intros reqUrl err -> Hbody. unfold bind, readEnv. now rewrite Hbody.
  - intros reqUrl bodyReader err -> Hbody Hcheck. unfold bind at 1, readEnv.
    rewrite Hbody. unfold buildRequest. now rewrite Hcheck.
Qed.



(** X4.  When the chain returns an error, [Exchange] returns it wrapped and
    does nothing else: a response that came with the error is neither read
    nor closed, and the response entity is as the caller gave it. *)
Theorem Exchange_chain_error (c : Client) (method urlIn : string)
    (query : Values) (reqIn respOut : option Entity) (reqUrl : Url)
    (bodyReader : BodyReader) (req : Request) (w w1 : World)
    (resp : option Response) (err : error) :
  buildReqUrl c urlIn query = inl reqUrl ->
  buildBodyReader reqIn (env w) = inl bodyReader ->
  buildRequest (timeout c) method reqUrl bodyReader reqIn respOut = inl req ->
  doRequest req (Front c) w = Done (resp, Some err) w1 ->
  Exchange c method urlIn query reqIn respOut w
  = Done (Some (Errorf_w "failed to send request: " err), respOut) w1
  /\ error_Error (Errorf_w "failed to send request: " err)
     = ("failed to send request: " ++ error_Error err)%string
  /\ Unwrap (Errorf_w "failed to send request: " err) = Some err.
Proof.
  intros Hurl Hbody Hreq Hchain.
  rewrite (Exchange_after_build _ _ _ _ _ _ _ _ _ _ Hurl Hbody Hreq), Hchain.
  destruct resp; repeat split.
Qed.



(** ** The response content *)

(** X6.  [processResponseContent] follows the shape of the content the caller
    put in the response entity.  A string takes the body as a string, a byte
    sequence takes its bytes, a writer gets the body copied into it;
    otherwise a JSON entity whose content is not nil has the body decoded
    into that content; anything else is the unsupported entity error, with
    the body not read.  A failed read leaves the entity as it was. *)
Theorem processResponseContent_shape_dispatch (resp : Response) (w : World) :
  (forall ct s,
      processResponseContent {| ContentType := ct; Content := AnyString s |} resp w
      = Done (match snd (fst (io_Copy (RespBody resp) (env w))) with
              | Some err => ({| ContentType := ct; Content := AnyString s |},
                             Some (Errorf_w "failed to read response body: " err))
              | None => ({| ContentType := ct;
                            Content := AnyString (String.string_of_list_byte
                                         (fst (fst (io_Copy (RespBody resp) (env w))))) |},
                         None)
              end)
             (afterRead w (RespBody resp) (snd (io_Copy (RespBody resp) (env w)))))
  /\ (forall ct b,
         processResponseContent {| ContentType := ct; Content := AnyBytes b |} resp w
         = Done (match snd (fst (io_Copy (RespBody resp) (env w))) with
                 | Some err => ({| ContentType := ct; Content := AnyBytes b |},
                                Some (Errorf_w "failed to read response body: " err))
                 | None => ({| ContentType := ct;
                               Content := AnyBytes
                                            (fst (fst (io_Copy (RespBody resp) (env w)))) |},
                            None)
                 end)
                (afterRead w (RespBody resp) (snd (io_Copy (RespBody resp) (env w)))))
  /\ (forall ct k h, isWriter k = true ->
         processResponseContent {| ContentType := ct; Content := AnyStream k h |} resp w
         = Done ({| ContentType := ct; Content := AnyStream k h |},
                 match fst (io_CopyTo h (RespBody resp) (env w)) with
                 | Some err => Some (Errorf_w "failed to read response body: " err)
                 | None => None
                 end)
                (afterRead w (RespBody resp) (snd (io_CopyTo h (RespBody resp) (env w)))))
  /\ (forall T v,
         processResponseContent (NewJsonEntity (AnyStruct T v)) resp w
         = Done (NewJsonEntity
                   (AnyStruct T (fst (fst (json_DecodeStruct T (RespBody resp) v (env w))))),
                 match snd (fst (json_DecodeStruct T (RespBody resp) v (env w))) with
                 | Some err => Some (Errorf_w "failed to decode response: " err)
                 | None => None
                 end)
                (afterRead w (RespBody resp)
                   (snd (json_DecodeStruct T (RespBody resp) v (env w)))))
  /\ (forall respOut,
         rawTarget (Content respOut) = false ->
         ContentType respOut <> JsonType \/ Content respOut = AnyNil ->
         processResponseContent respOut resp w = Done (respOut, Some unsupportedResponseEntity) w).
Proof.
  split; [|split; [|split; [|split]]].
  - intros ct s. unfold processResponseContent; simpl.
    unfold bind. rewrite copyToBuffer_unfold.
    destruct (io_Copy (RespBody resp) (env w)) as [[buffer [err|]] e]; reflexivity.
  - intros ct b. unfold processResponseContent; simpl.
    unfold bind. rewrite copyToBuffer_unfold.
    destruct (io_Copy (RespBody resp) (env w)) as [[buffer [err|]] e]; reflexivity.
  - intros ct k h Hk. unfold processResponseContent; simpl. rewrite Hk.
    unfold copyToWriter; run.
    destruct (io_CopyTo h (RespBody resp) (env w)) as [[err|] e]; reflexivity.
  - intros T v. unfold processResponseContent; simpl.
    unfold decodeInto; run.
    destruct (json_DecodeStruct T (RespBody resp) v (env w)) as [[v' [err|]] e];
      reflexivity.
  - intros [ct content] Hraw Hno. unfold processResponseContent. simpl in *.
    unfold rawTarget in Hraw.
    destruct (asString content); [discriminate|].
    destruct (asBytes content); [discriminate|].
    destruct (asWriter content); [discriminate|].
    destruct Hno as [Hct| ->].
    + apply String.eqb_neq in Hct. now rewrite Hct.
    + now rewrite andb_false_r.
Qed.


Lemma afterResponse_entity_type (respOut : option Entity) (resp : Response)
    (w w2 : World) (err : option error) (ro : option Entity) :
  afterResponse respOut resp w = Done (err, ro) w2 ->
  match respOut, ro with
  | None, None => True
  | Some a, Some b => ContentType b = ContentType a
                      /\ ((300 <= StatusCode resp)%Z -> b = a)
  | _, _ => False
  end.
Proof.
  destruct (Z_lt_le_dec (StatusCode resp) 300) as [Hlt|Hge].
  - destruct respOut as [respOut|].
    + destruct (processResponseContent_runs respOut resp w)
        as (ro' & perr & w' & Hrun & _ & _ & _ & Hct & _).
      rewrite (afterResponse_entity _ _ _ _ _ _ Hlt Hrun).
      intros [= _ <- _]. split; [exact Hct|]. intros; lia.
    + rewrite (afterResponse_no_entity _ _ Hlt). intros [= _ <- _]. exact I.
  - rewrite (afterResponse_failure _ _ _ Hge). intros [= _ <- _].
    destruct respOut; auto.
Qed.

(** X8.  [Exchange] never changes the content type of the response entity,
    whatever the Content-Type of the response is; a nil response entity
    stays nil.  When [Exchange] returns a *FailedResponseError the entity is
    as the caller gave it. *)
Theorem Exchange_keeps_response_entity_type (c : Client) (method urlIn : string)
    (query : Values) (reqIn respOut : option Entity) (w w2 : World)
    (err : option error) (ro : option Entity) :
  Exchange c method urlIn query reqIn respOut w = Done (err, ro) w2 ->
  match respOut, ro with
  | None, None => True
  | Some a, Some b => ContentType b = ContentType a
                      /\ (isFailedResponse err = true -> b = a)
  | _, _ => False
  end.
Proof.
  assert (Hid : match respOut, respOut with
                | None, None => True
                | Some a, Some b => ContentType b = ContentType a
                                    /\ (isFailedResponse err = true -> b = a)
                | _, _ => False
                end) by (destruct respOut; auto).
  destruct (buildReqUrl c urlIn query) as [reqUrl|e] eqn:Hurl.
  2:{ unfold Exchange, ExchangeWithContext. rewrite Hurl. intros [= _ <- _]. exact Hid. }
  destruct (buildBodyReader reqIn (env w)) as [bodyReader|e] eqn:Hbody.
  2:{ unfold Exchange, ExchangeWithContext. rewrite Hurl. unfold bind, readEnv.
      rewrite Hbody. intros [= _ <- _]. exact Hid. }
  destruct (buildRequest (timeout c) method reqUrl bodyReader reqIn respOut)
    as [req|e] eqn:Hreq.
  2:{ unfold Exchange, ExchangeWithContext. rewrite Hurl. unfold bind, readEnv.
      rewrite Hbody, Hreq. intros [= _ <- _]. exact Hid. }
  rewrite (Exchange_after_build _ _ _ _ _ _ _ _ _ _ Hurl Hbody Hreq).
  destruct (doRequest req (Front c) w) as [[[resp|] [e|]] w1|msg w1] eqn:Hchain;
    try discriminate; try (intros [= _ <- _]; exact Hid).
  intros Hafter.
  pose proof (afterResponse_entity_type _ _ _ _ _ _ Hafter) as Htype.
  destruct respOut as [a|], ro as [b|]; try exact Htype.
  destruct Htype as [Hct Hfail]. split; [exact Hct|].
  intros Hfailed.
  destruct (Z_lt_le_dec (StatusCode resp) 300) as [Hlt|Hge]; [|auto].
  rewrite (afterResponse_not_failed _ _ _ _ _ _ Hlt Hafter) in Hfailed. discriminate.
Qed.

(** X9.  A response entity of an unsupported shape is found out only after
    the exchange took place: the chain has run and returned a response, and
    [Exchange] then returns the unsupported entity error, with the body
    closed and not read and the entity as it was. *)
Theorem unsupported_response_entity_after_send (c : Client) (method urlIn : string)
    (query : Values) (reqIn : option Entity) (respOut : Entity) (reqUrl : Url)
    (bodyReader : BodyReader) (req : Request) (w w1 : World) (resp : Response) :
  buildReqUrl c urlIn query = inl reqUrl ->
  buildBodyReader reqIn (env w) = inl bodyReader ->
  buildRequest (timeout c) method reqUrl bodyReader reqIn (Some respOut) = inl req ->
  doRequest req (Front c) w = Done (Some resp, None) w1 ->
  (StatusCode resp < 300)%Z ->
  rawTarget (Content respOut) = false ->
  ContentType respOut <> JsonType \/ Content respOut = AnyNil ->
  Exchange c method urlIn query reqIn (Some respOut) w
  = Done (Some unsupportedResponseEntity, Some respOut)
         {| env := snd (body_Close (RespBody resp) (env w1));
            trace := trace w1 ++ [EvClose (RespBody resp)];
            heap := heap w1 |}.
Proof.
  intros Hurl Hbody Hreq Hchain Hlt Hraw Hno.
  rewrite (Exchange_after_build _ _ _ _ _ _ _ _ _ _ Hurl Hbody Hreq), Hchain.
  assert (Hrun : processResponseContent respOut resp w1
                 = Done (respOut, Some unsupportedResponseEntity) w1).
  { destruct respOut as [ct content]. unfold processResponseContent. simpl in *.
    unfold rawTarget in Hraw.
    destruct (asString content); [discriminate|].
    destruct (asBytes content); [discriminate|].
    destruct (asWriter content); [discriminate|].
    destruct Hno as [Hct| ->].
    - apply String.eqb_neq in Hct. now rewrite Hct.
    - now rewrite andb_false_r. }
  rewrite (afterResponse_entity _ _ _ _ _ _ Hlt Hrun). reflexivity.
Qed.

(** ** The message of a failed response *)

Lemma string_length_app (a b : string) :
  String.length (a ++ b) = String.length a + String.length b.
Proof.
  induction a as [|x a IH]; [reflexivity|].
  change (S (String.length (a ++ b)) = S (String.length a + String.length b)).
  now rewrite IH.
Qed.

Lemma string_length_of_bytes (b : list Byte.byte) :
  String.length (String.string_of_list_byte b) = length b.
Proof.
  induction b as [|x b IH]; [reflexivity|].
  change (S (String.length (String.string_of_list_byte b)) = S (length b)).
  now rewrite IH.
Qed.

(** X10.  The message of a *FailedResponseError is the status line alone when
    there is no entity or its content is not a byte sequence; with a byte
    sequence it is the status line followed by the first 100 bytes of it at
    most, so that it is never longer than the status line by more than 108
    characters.  The error that [buildFailedResponseError] returns always
    has the bytes of the body, hence a message of the second form. *)
Theorem FailedResponseError_message (code : Z) (status : string) :
  error_Error (FailedResponseError code status None) = status
  /\ (forall ct content,
         asBytes content = None ->
         error_Error (FailedResponseError code status
                        (Some {| ContentType := ct; Content := content |})) = status)
  /\ (forall ct b,
         error_Error (FailedResponseError code status
                        (Some {| ContentType := ct; Content := AnyBytes b |}))
         = (status ++ " body=[" ++ String.string_of_list_byte (take 100 b) ++ "]")%string
         /\ String.length
              (error_Error (FailedResponseError code status
                              (Some {| ContentType := ct; Content := AnyBytes b |})))
            <= String.length status + 108)
  /\ (forall resp w,
         exists e w',
           buildFailedResponseError resp w = Done e w'
           /\ error_Error e
              = (Status resp ++ " body=["
                   ++ String.string_of_list_byte
                        (take 100 (fst (fst (io_Copy (RespBody resp) (env w)))))
                   ++ "]")%string).
Proof.
  assert (Hmsg : forall code status ct b,
             error_Error (FailedResponseError code status
                            (Some {| ContentType := ct; Content := AnyBytes b |}))
             = (status ++ " body=[" ++ String.string_of_list_byte (take 100 b) ++ "]")%string).
  { clear code status. intros code status ct b. simpl.
    destruct (100 <? length b)%nat eqn:Hlen; [reflexivity|].
    apply Nat.ltb_ge in Hlen. now rewrite take_ge. }
  split; [reflexivity|]. split; [|split].
  - intros ct content Hb. destruct content; try reflexivity. discriminate.
  - intros ct b. split; [apply Hmsg|]. rewrite Hmsg.
    rewrite !string_length_app, string_length_of_bytes, length_take.
    change (String.length " body=[") with 7. change (String.length "]") with 1.
    pose proof (Nat.le_min_l 100 (length b)). lia.
  - intros resp w. unfold buildFailedResponseError.
    unfold bind at 1. rewrite copyToBuffer_unfold.
    unfold bind. rewrite Body_Close_unfold.
    eexists _, _. split; [reflexivity|]. apply Hmsg.
Qed.

(** ** Basic authentication *)

(** X11.  [BasicAuth] sets the Authorization header of the request, replacing
    one that is there, leaves the rest of the request alone and hands it to
    [next]; it adds neither response nor error of its own.  As the only
    interceptor it makes the transport see that request, once. *)
Theorem BasicAuth_sets_authorization (user pass : string) (req : Request) (w : World) :
  (forall next, BasicAuth user pass req next w
                = next (setHeader req "Authorization" (basicAuthValue user pass)) w)
  /\ Header_Get (ReqHeader (setHeader req "Authorization" (basicAuthValue user pass)))
       "Authorization" = basicAuthValue user pass
  /\ Body (setHeader req "Authorization" (basicAuthValue user pass)) = Body req
  /\ (forall key, CanonicalHeaderKey key <> CanonicalHeaderKey "Authorization" ->
        Header_Get (ReqHeader (setHeader req "Authorization" (basicAuthValue user pass))) key
        = Header_Get (ReqHeader req) key)
  /\ doRequest req [BasicAuth user pass] w
     = Done (settle (RoundTrip_pair
                       (fst (http_Do (setHeader req "Authorization" (basicAuthValue user pass))
                               (env w)))))
            {| env := snd (http_Do (setHeader req "Authorization" (basicAuthValue user pass))
                             (env w));
               trace := trace w
                        ++ [EvSend (setHeader req "Authorization" (basicAuthValue user pass))];
               heap := heap w |}.
Proof.
  split; [reflexivity|]. split; [apply Header_Get_Set|]. split; [reflexivity|].
  split.
  - intros key Hkey. unfold setHeader; simpl. now apply Header_Get_Set_other.
  - rewrite doRequest_cons. unfold BasicAuth.
    change (doRequest (setHeader req "Authorization" (basicAuthValue user pass)) [])
      with (http_DefaultClient_Do (setHeader req "Authorization" (basicAuthValue user pass))).
    rewrite send_unfold. reflexivity.
Qed.

(** ** The authenticator: construction and the token request *)

(** X12.  [IdentityV2Authenticator] returns an interceptor exactly when the
    username is not empty, the password or the api key is not empty and the
    identity URL parses.  It then makes one cell, without token and with the
    zero time as expiration.  When it returns an error it returns no
    interceptor and makes no cell; for a URL that does not parse, the error
    wraps the one of [SetBaseUrl]. *)
Theorem IdentityV2Authenticator_succeeds_iff (identityUrl user pass key : string)
    (w : World) :
  ((exists i w', IdentityV2Authenticator identityUrl user pass key w = Done (Some i, None) w')
   <-> user <> "" /\ (pass <> "" \/ key <> "") /\ exists url, url_Parse identityUrl = inl url)
  /\ (forall url,
         user <> "" -> pass <> "" \/ key <> "" -> url_Parse identityUrl = inl url ->
         IdentityV2Authenticator identityUrl user pass key w
         = Done (Some (intercept (length (heap w))), None)
                {| env := env w; trace := trace w;
                   heap := heap w ++ [{| username := user; password := pass; apikey := key;
                                         restClient_BaseUrl := Some url;
                                         restClient_Timeout := authTimeout;
                                         token := ""; tokenExpiration := zeroTime |}] |})
  /\ (forall r err w',
         IdentityV2Authenticator identityUrl user pass key w = Done (r, Some err) w' ->
         r = None /\ w' = w)
  /\ (forall err,
         user <> "" -> pass <> "" \/ key <> "" -> url_Parse identityUrl = inr err ->
         IdentityV2Authenticator identityUrl user pass key w
         = Done (None, Some (Errorf_w "invalid Identity URL: "
                               (Errorf_w "failed to parse given base url: " err))) w).
Proof.
  assert (Hok : forall url,
             user <> "" -> pass <> "" \/ key <> "" -> url_Parse identityUrl = inl url ->
             IdentityV2Authenticator identityUrl user pass key w
             = Done (Some (intercept (length (heap w))), None)
                    {| env := env w; trace := trace w;
                       heap := heap w ++ [{| username := user; password := pass;
                                             apikey := key;
                                             restClient_BaseUrl := Some url;
                                             restClient_Timeout := authTimeout;
                                             token := ""; tokenExpiration := zeroTime |}] |}).
  { intros url Huser Hcred Hurl. unfold IdentityV2Authenticator, SetBaseUrl.
    apply String.eqb_neq in Huser. rewrite Huser, Hurl.
    destruct Hcred as [H|H]; apply String.eqb_neq in H; rewrite H;
      rewrite ?andb_false_r; reflexivity. }
  assert (Hbad : forall err,
             user <> "" -> pass <> "" \/ key <> "" -> url_Parse identityUrl = inr err ->
             IdentityV2Authenticator identityUrl user pass key w
             = Done (None, Some (Errorf_w "invalid Identity URL: "
                                   (Errorf_w "failed to parse given base url: " err))) w).
  { intros err Huser Hcred Hurl. unfold IdentityV2Authenticator, SetBaseUrl.
    apply String.eqb_neq in Huser. rewrite Huser, Hurl.
    destruct Hcred as [H|H]; apply String.eqb_neq in H; rewrite H;
      rewrite ?andb_false_r; reflexivity. }
  split; [|split; [exact Hok|split; [|exact Hbad]]].
  - split.
    + intros (i & w' & Hrun). revert Hrun. unfold IdentityV2Authenticator, SetBaseUrl.
      destruct (String.eqb user "") eqn:Huser; [discriminate|].
      destruct (String.eqb pass "") eqn:Hpass, (String.eqb key "") eqn:Hkey; simpl;
        try discriminate;
        (destruct (url_Parse identityUrl) as [url|err]; [|discriminate]); intros _;
        apply String.eqb_neq in Huser; (split; [exact Huser|]);
        (split; [|eauto]).
      * right. now apply String.eqb_neq.
      * left. now apply String.eqb_neq.
      * left. now apply String.eqb_neq.
    + intros (Huser & Hcred & url & Hurl). rewrite (Hok url Huser Hcred Hurl). eauto.
  - intros r err w'. unfold IdentityV2Authenticator, SetBaseUrl.
    destruct (String.eqb user ""); [intros [= <- _ <-]; auto|].
    destruct (String.eqb pass "" && String.eqb key ""); [intros [= <- _ <-]; auto|].
    destruct (url_Parse identityUrl) as [url|e]; [discriminate|].
    intros [= <- _ <-]; auto.
Qed.

(** X13.  [SetBaseUrl] changes the base URL only.  When the URL does not parse
    the client stays as it is and the error is wrapped; when it parses, the
    timeout and the interceptors are kept, and from then on [buildReqUrl]
    resolves its argument against that base, with the encoded query when
    there are query values, and wraps an error of the resolution. *)
Theorem SetBaseUrl_then_resolve (c : Client) (rawurl : string) :
  (forall err, url_Parse rawurl = inr err ->
     SetBaseUrl c rawurl = (c, Some (Errorf_w "failed to parse given base url: " err)))
  /\ (forall url, url_Parse rawurl = inl url ->
        snd (SetBaseUrl c rawurl) = None
        /\ BaseUrl (fst (SetBaseUrl c rawurl)) = Some url
        /\ Timeout (fst (SetBaseUrl c rawurl)) = Timeout c
        /\ Front (fst (SetBaseUrl c rawurl)) = Front c
        /\ forall urlIn query,
            buildReqUrl (fst (SetBaseUrl c rawurl)) urlIn query
            = match url_ParseRef url urlIn with
              | inr err => inr (Errorf_w "failed to parse given url relative to base: " err)
              | inl reqUrl =>
                  inl (match query with
                       | [] => reqUrl
                       | _ => url_setRawQuery reqUrl (values_Encode query)
                       end)
              end).
Proof.
  unfold SetBaseUrl. split.
  - intros err ->. reflexivity.
  - intros url ->. simpl. repeat split.
    intros urlIn query. unfold buildReqUrl; simpl.
    destruct (url_ParseRef url urlIn); [|reflexivity].
    destruct query; reflexivity.
Qed.

(** The request that the nested exchange of [authenticate] built and sent,
    when it got as far as the transport. *)
Lemma authenticate_sends (p : nat) (a : identityV2AuthenticatorImpl) (w : World) :
  heap w !! p = Some a ->
  exists err w2,
    authenticate p w = Done err w2
    /\ (trace w2 = trace w
        \/ exists reqUrl bodyReader req rest,
             buildReqUrl (restClient a) "/v2.0/tokens" [] = inl reqUrl
             /\ buildBodyReader (Some (NewJsonEntity (credentials a))) (env w) = inl bodyReader
             /\ buildRequest (timeout (restClient a)) "POST" reqUrl bodyReader
                  (Some (NewJsonEntity (credentials a)))
                  (Some (NewJsonEntity (AnyStruct TAuthResp (zeroStruct TAuthResp))))
                = inl req
             /\ trace w2 = trace w ++ EvSend req :: rest
             /\ transportCalls rest = 0).
Proof.
  intros Hp.
  destruct (Exchange_plain (restClient a) "POST" "/v2.0/tokens" []
              (Some (NewJsonEntity (credentials a)))
              (Some (NewJsonEntity (AnyStruct TAuthResp (zeroStruct TAuthResp)))) w eq_refl)
    as (err & ro & w2 & Hrun & _ & _ & Htrace).
  destruct (authenticate_runs p a w Hp)
    as (err' & ro' & w2' & Hrun' & _ & _ & _ & Hres).
  unfold tokenRequest in Hrun'. rewrite Hrun in Hrun'. injection Hrun' as <- <- <-.
  assert (Htr : trace w2 = trace w
                \/ exists reqUrl bodyReader req rest,
                     buildReqUrl (restClient a) "/v2.0/tokens" [] = inl reqUrl
                     /\ buildBodyReader (Some (NewJsonEntity (credentials a))) (env w)
                        = inl bodyReader
                     /\ buildRequest (timeout (restClient a)) "POST" reqUrl bodyReader
                          (Some (NewJsonEntity (credentials a)))
                          (Some (NewJsonEntity (AnyStruct TAuthResp (zeroStruct TAuthResp))))
                        = inl req
                     /\ trace w2 = trace w ++ EvSend req :: rest
                     /\ transportCalls rest = 0).
  { destruct Htrace as [[H _]|H]; [left; exact H|right; exact H]. }
  destruct err as [e|].
  - eexists _, w2. split; [exact Hres|exact Htr].
  - destruct Hres as (_ & resp & _ & Hauth).
    exists None, (stored p a resp w2). split; [exact Hauth|exact Htr].
Qed.

(** X14.  The request that [authenticate] sends does not depend on the request
    that is being intercepted: it is a POST to the URL that /v2.0/tokens
    resolves to against the identity URL of the cell, it asks for and
    announces JSON, and its timeout is the one of the cell's own client,
    the 60 seconds of [authTimeout] for a cell made by
    [IdentityV2Authenticator]. *)
Theorem token_request_shape (p : nat) (a : identityV2AuthenticatorImpl) (w : World) :
  heap w !! p = Some a ->
  CanonicalHeaderKey headerContentType <> CanonicalHeaderKey headerAccept ->
  exists err w2,
    authenticate p w = Done err w2
    /\ (trace w2 = trace w
        \/ exists reqUrl sent rest,
             trace w2 = trace w ++ EvSend sent :: rest
             /\ transportCalls rest = 0
             /\ buildReqUrl (restClient a) "/v2.0/tokens" [] = inl reqUrl
             /\ RequestURL sent = url_String reqUrl
             /\ Method sent = "POST"
             /\ Header_Get (ReqHeader sent) headerContentType = JsonType
             /\ Header_Get (ReqHeader sent) headerAccept = JsonType
             /\ ReqTimeout sent = timeout (restClient a)
             /\ (restClient_Timeout a = authTimeout -> ReqTimeout sent = authTimeout)).
Proof.
  intros Hp Hkeys.
  destruct (authenticate_sends p a w Hp) as (err & w2 & Hauth & Htrace).
  exists err, w2. split; [exact Hauth|].
  destruct Htrace as [H|(reqUrl & br & req & rest & Hurl & _ & Hreq & Htr & Hrest)];
    [left; exact H|right].
  exists reqUrl, req, rest.
  split; [exact Htr|]. split; [exact Hrest|]. split; [exact Hurl|].
  revert Hreq. unfold buildRequest.
  destruct (http_NewRequest_check "POST" (url_String reqUrl)); [discriminate|].
  intros [= <-]. simpl.
  split; [reflexivity|]. split; [reflexivity|]. split.
  { unfold setHeader; simpl. rewrite (Header_Get_Set_other _ _ _ _ Hkeys).
    apply Header_Get_Set. }
  split; [apply Header_Get_Set|]. split; [reflexivity|].
  intros Ht. unfold timeout, restClient; simpl. rewrite Ht. reflexivity.
Qed.

(** X15.  A cell without api key authenticates with its password:
    [authenticate] returns, and the request it sends, if any, has the JSON
    encoding of the password credentials as its body. *)
Theorem password_credentials_without_apikey (p : nat) (a : identityV2AuthenticatorImpl)
    (w : World) :
  heap w !! p = Some a -> apikey a = "" ->
  credentials a
  = AnyStruct TPasswordReq
      {| PasswordReq_Username := username a; PasswordReq_Password := password a |}
  /\ exists err w2,
      authenticate p w = Done err w2
      /\ (trace w2 = trace w
          \/ exists sent rest buffer,
               trace w2 = trace w ++ EvSend sent :: rest
               /\ transportCalls rest = 0
               /\ json_Encode
                    (AnyStruct TPasswordReq
                       {| PasswordReq_Username := username a;
                          PasswordReq_Password := password a |}) (env w) = inl buffer
               /\ Body sent = JsonBuffer buffer).
Proof.
  intros Hp Hkey.
  assert (Hcred : credentials a
                  = AnyStruct TPasswordReq
                      {| PasswordReq_Username := username a;
                         PasswordReq_Password := password a |}).
  { unfold credentials. now rewrite Hkey. }
  split; [exact Hcred|].
  destruct (authenticate_sends p a w Hp) as (err & w2 & Hauth & Htrace).
  exists err, w2. split; [exact Hauth|].
  destruct Htrace as [H|(reqUrl & br & req & rest & _ & Hbody & Hreq & Htr & Hrest)];
    [left; exact H|right].
  rewrite buildBodyReader_credentials, Hcred in Hbody.
  destruct (json_Encode _ (env w)) as [buffer|] eqn:Henc; [|discriminate].
  injection Hbody as <-. apply buildRequest_Body in Hreq.
  exists req, rest, buffer. auto.
Qed.

(** X16.  A refresh changes nothing but the token and the expiration of its
    own cell: the cells of other authenticators, the number of cells, and
    the credentials and the client of its own cell stay as they are. *)
Theorem authenticate_frame (p : nat) (a : identityV2AuthenticatorImpl) (w : World) :
  heap w !! p = Some a ->
  exists err w2,
    authenticate p w = Done err w2
    /\ length (heap w2) = length (heap w)
    /\ (forall q, q <> p -> heap w2 !! q = heap w !! q)
    /\ (err <> None -> heap w2 = heap w)
    /\ exists a2,
        heap w2 !! p = Some a2
        /\ username a2 = username a /\ password a2 = password a /\ apikey a2 = apikey a
        /\ restClient a2 = restClient a.
Proof.
  intros Hp.
  destruct (authenticate_runs p a w Hp)
    as (err & ro & w2 & _ & Hheap & _ & _ & Hres).
  destruct err as [e|].
  - eexists _, w2. split; [exact Hres|]. rewrite Hheap.
    split; [reflexivity|]. split; [reflexivity|]. split; [reflexivity|].
    exists a. auto.
  - destruct Hres as (_ & resp & _ & Hauth).
    exists None, (stored p a resp w2). split; [exact Hauth|].
    unfold stored; simpl. rewrite Hheap.
    split; [apply length_insert|].
    split; [intros q Hq; apply list_lookup_insert_ne; congruence|].
    split; [intros H; now destruct H|].
    exists (withToken a (Token_Id resp) (Token_Expires resp)).
    split; [|auto].
    apply list_lookup_insert_eq. eapply lookup_lt_Some; eassumption.
Qed.

(** X17.  An interceptor may answer in place of the transport.  When the first
    interceptor returns a response and no error whatever its [next] is,
    the chain returns that response, with nothing of the rest of the chain
    run, and [Exchange] goes on with it as with a response of the network:
    a *FailedResponseError from 300 on, the body closed in every case. *)
Theorem interceptor_may_answer (c : Client) (i : Interceptor) (rest : list Interceptor)
    (method urlIn : string) (query : Values) (reqIn respOut : option Entity)
    (reqUrl : Url) (bodyReader : BodyReader) (req : Request)
    (w w1 : World) (resp : Response) :
  Front c = i :: rest ->
  buildReqUrl c urlIn query = inl reqUrl ->
  buildBodyReader reqIn (env w) = inl bodyReader ->
  buildRequest (timeout c) method reqUrl bodyReader reqIn respOut = inl req ->
  (forall next, i req next w = Done (Some resp, None) w1) ->
  (forall others, doRequest req (i :: others) w = Done (Some resp, None) w1)
  /\ Exchange c method urlIn query reqIn respOut w = afterResponse respOut resp w1
  /\ (exists err ro w2 mid,
         Exchange c method urlIn query reqIn respOut w = Done (err, ro) w2
         /\ trace w2 = trace w1 ++ mid ++ [EvClose (RespBody resp)]
         /\ transportCalls mid = 0
         /\ ((300 <= StatusCode resp)%Z -> isFailedResponse err = true)
         /\ ((StatusCode resp < 300)%Z -> isFailedResponse err = false)).
Proof.
  intros Hfront Hurl Hbody Hreq Hi.
  assert (Hchain : forall others, doRequest req (i :: others) w = Done (Some resp, None) w1).
  { intros others. rewrite doRequest_cons, Hi. reflexivity. }
  split; [exact Hchain|].
  rewrite (Exchange_after_build _ _ _ _ _ _ _ _ _ _ Hurl Hbody Hreq), Hfront, Hchain.
  split; [reflexivity|].
  destruct (afterResponse_closes respOut resp w1)
    as (err & ro & w2 & Hrun & _ & (mid & Htrace & _ & Hmid) & _).
  exists err, ro, w2, mid. split; [exact Hrun|]. split; [exact Htrace|].
  split; [exact Hmid|]. split.
  - intros Hge. rewrite (afterResponse_failure _ _ _ Hge) in Hrun.
    injection Hrun as <- _ _. reflexivity.
  - intros Hlt. eapply afterResponse_not_failed; eassumption.
Qed.

(** What a client without interceptors sent, if it sent. *)
Lemma Exchange_plain_sent (c : Client) (method urlIn : string) (query : Values)
    (reqIn respOut : option Entity) (w w2 : World) (err : option error)
    (ro : option Entity) :
  Front c = [] ->
  Exchange c method urlIn query reqIn respOut w = Done (err, ro) w2 ->
  trace w2 = trace w
  \/ exists reqUrl bodyReader req rest,
       buildReqUrl c urlIn query = inl reqUrl
       /\ buildBodyReader reqIn (env w) = inl bodyReader
       /\ buildRequest (timeout c) method reqUrl bodyReader reqIn respOut = inl req
       /\ trace w2 = trace w ++ EvSend req :: rest
       /\ transportCalls rest = 0.
Proof.
  intros Hfront Hrun.
  destruct (Exchange_plain c method urlIn query reqIn respOut w Hfront)
    as (err' & ro' & w2' & Hrun' & _ & _ & Htrace).
  rewrite Hrun in Hrun'. injection Hrun' as <- <- <-.
  destruct Htrace as [[H _]|H]; [left; exact H|right; exact H].
Qed.

Lemma buildRequest_contentType (t : Z) (method : string) (reqUrl : Url)
    (bodyReader : BodyReader) (reqIn : Entity) (respOut : option Entity) (req : Request) :
  CanonicalHeaderKey headerContentType <> CanonicalHeaderKey headerAccept ->
  buildRequest t method reqUrl bodyReader (Some reqIn) respOut = inl req ->
  Body req = bodyReader
  /\ Header_Get (ReqHeader req) headerContentType = ContentType reqIn.
Proof.
  intros Hkeys Hreq. split; [eapply buildRequest_Body; eassumption|].
  revert Hreq. unfold buildRequest.
  destruct (http_NewRequest_check method (url_String reqUrl)); [discriminate|].
  intros [= <-]. destruct reqIn as [ctIn cIn]. simpl.
  destruct (String.eqb ctIn "") eqn:Ein; simpl.
  - apply String.eqb_eq in Ein. subst ctIn.
    destruct respOut as [[ctOut cOut]|]; simpl; [|reflexivity].
    destruct (String.eqb ctOut ""); simpl; [reflexivity|].
    now rewrite (Header_Get_Set_other _ _ _ _ Hkeys).
  - destruct respOut as [[ctOut cOut]|]; simpl; [|apply Header_Get_Set].
    destruct (String.eqb ctOut ""); simpl; [apply Header_Get_Set|].
    rewrite (Header_Get_Set_other _ _ _ _ Hkeys). apply Header_Get_Set.
Qed.

(** X18.  What the entity constructors put on the wire, on a client without
    interceptors.  A text entity is sent as its string, as text/plain.  A
    JSON entity of a struct is sent JSON encoded, as application/json.  A
    JSON entity made of a string is sent as that string, not encoded, and
    still as application/json. *)
Theorem entity_constructors_on_the_wire (c : Client) (method urlIn : string)
    (query : Values) (respOut : option Entity) (w w2 : World)
    (err : option error) (ro : option Entity) :
  Front c = [] ->
  CanonicalHeaderKey headerContentType <> CanonicalHeaderKey headerAccept ->
  (forall s,
      Exchange c method urlIn query (Some (NewTextEntity s)) respOut w = Done (err, ro) w2 ->
      trace w2 = trace w
      \/ exists sent rest,
           trace w2 = trace w ++ EvSend sent :: rest
           /\ Body sent = BufferString s
           /\ Header_Get (ReqHeader sent) headerContentType = TextType)
  /\ (forall T v,
         Exchange c method urlIn query (Some (NewJsonEntity (AnyStruct T v))) respOut w
         = Done (err, ro) w2 ->
         trace w2 = trace w
         \/ exists sent rest buffer,
              trace w2 = trace w ++ EvSend sent :: rest
              /\ json_Encode (AnyStruct T v) (env w) = inl buffer
              /\ Body sent = JsonBuffer buffer
              /\ Header_Get (ReqHeader sent) headerContentType = JsonType)
  /\ (forall s,
         Exchange c method urlIn query (Some (NewJsonEntity (AnyString s))) respOut w
         = Done (err, ro) w2 ->
         trace w2 = trace w
         \/ exists sent rest,
              trace w2 = trace w ++ EvSend sent :: rest
              /\ Body sent = BufferString s
              /\ Header_Get (ReqHeader sent) headerContentType = JsonType).
Proof.
  intros Hfront Hkeys. split; [|split].
  - intros s Hrun.
    destruct (Exchange_plain_sent _ _ _ _ _ _ _ _ _ _ Hfront Hrun)
      as [H|(reqUrl & br & req & rest & _ & Hbody & Hreq & Htr & _)]; [left; exact H|right].
    injection Hbody as <-.
    destruct (buildRequest_contentType _ _ _ _ _ _ _ Hkeys Hreq) as [HB HC].
    exists req, rest. auto.
  - intros T v Hrun.
    destruct (Exchange_plain_sent _ _ _ _ _ _ _ _ _ _ Hfront Hrun)
      as [H|(reqUrl & br & req & rest & _ & Hbody & Hreq & Htr & _)]; [left; exact H|right].
    unfold buildBodyReader in Hbody; simpl in Hbody.
    destruct (json_Encode (AnyStruct T v) (env w)) as [buffer|] eqn:Henc; [|discriminate].
    injection Hbody as <-.
    destruct (buildRequest_contentType _ _ _ _ _ _ _ Hkeys Hreq) as [HB HC].
    exists req, rest, buffer. auto.
  - intros s Hrun.
    destruct (Exchange_plain_sent _ _ _ _ _ _ _ _ _ _ Hfront Hrun)
      as [H|(reqUrl & br & req & rest & _ & Hbody & Hreq & Htr & _)]; [left; exact H|right].
    injection Hbody as <-.
    destruct (buildRequest_contentType _ _ _ _ _ _ _ Hkeys Hreq) as [HB HC].
    exists req, rest. auto.
Qed.

End Further.

(** * Scenarios on the scripted host *)

Module Scenarios.
Import Script.






Lemma Exchange_status_classification_witness :
  doRequest ping [] (world 0 [Answered (reply 300 "300 Multiple Choices" 7)] [])
  = Done (Some (reply 300 "300 Multiple Choices" 7), None)
         {| env := {| clock := 0; replies := [] |}; trace := [EvSend ping]; heap := [] |}
  /\ Exchange (client []) "POST" "/ping" [] (Some (NewTextEntity "greetings")) None
       (world 0 [Answered (reply 300 "300 Multiple Choices" 7)] [])
     = Done (Some (FailedResponseError 300 "300 Multiple Choices"
                     (Some {| ContentType := "text/plain";
                              Content := AnyBytes (String.list_byte_of_string "error text") |})),
             None)
            {| env := {| clock := 0; replies := [] |};
               trace := [EvSend (setHeader ping "Content-Type" "text/plain");
                         EvRead 7; EvClose 7];
               heap := [] |}.
Proof.
  split; [reflexivity|].
  refine (proj1 (Exchange_status_classification (client []) "POST" "/ping" []
                   (Some (NewTextEntity "greetings")) None _ _ _
                   (world 0 [Answered (reply 300 "300 Multiple Choices" 7)] []) _
                   (reply 300 "300 Multiple Choices" 7)
                   eq_refl eq_refl eq_refl eq_refl) _).
  simpl. lia.
Defined.

(** A response with status 299 is a success. *)
Example status_299_is_success :
  Exchange (client []) "POST" "/ping" [] (Some (NewTextEntity "greetings")) None
    (world 0 [Answered (reply 299 "299" 7)] [])
  = Done (None, None)
         {| env := {| clock := 0; replies := [] |};
            trace := [EvSend (setHeader ping "Content-Type" "text/plain"); EvClose 7];
            heap := [] |}.
Proof. reflexivity. Qed.

Lemma Exchange_closes_body_witness :
  doRequest ping [] (world 0 [Answered (reply 200 "200 OK" 13)] [])
  = Done (Some (reply 200 "200 OK" 13), None)
         {| env := {| clock := 0; replies := [] |}; trace := [EvSend ping]; heap := [] |}
  /\ Exchange (client []) "POST" "/ping" [] (Some (NewTextEntity "greetings")) None
       (world 0 [Answered (reply 200 "200 OK" 13)] [])
     = Done (Some (wrapError "failed to close response body: " (errorString "already closed")),
             None)
            {| env := {| clock := 0; replies := [] |};
               trace := [EvSend (setHeader ping "Content-Type" "text/plain"); EvClose 13];
               heap := [] |}.
Proof.
  split; [reflexivity|].
  refine (proj1 (proj2 (Exchange_closes_body (client []) "POST" "/ping" []
                   (Some (NewTextEntity "greetings")) None _ _ _
                   (world 0 [Answered (reply 200 "200 OK" 13)] []) _
                   (reply 200 "200 OK" 13)
                   eq_refl eq_refl eq_refl eq_refl)) _ eq_refl).
  simpl. lia.
Defined.

Lemma buildBodyReader_shape_dispatch_witness :
  buildBodyReader (Some (NewJsonEntity (AnyRef 4))) {| clock := 0; replies := [] |}
  = inl (JsonBuffer (String.list_byte_of_string "{}"))
  /\ buildBodyReader (Some {| ContentType := "application/xml"; Content := AnyRef 4 |})
       {| clock := 0; replies := [] |}
     = inr unsupportedRequestEntity.
Proof.
  split.
  - refine (proj1 (proj2 (proj2 (proj2 (proj2
             (buildBodyReader_shape_dispatch {| clock := 0; replies := [] |})))))
             (NewJsonEntity (AnyRef 4)) eq_refl eq_refl eq_refl eq_refl _).
    discriminate.
  - refine (proj1 (proj2 (proj2 (proj2 (proj2 (proj2
             (buildBodyReader_shape_dispatch {| clock := 0; replies := [] |}))))))
             {| ContentType := "application/xml"; Content := AnyRef 4 |}
             eq_refl eq_refl eq_refl (or_introl _)).
    discriminate.
Defined.

Lemma json_nil_content_unsupported_witness :
  Exchange (client []) "POST" "/ping" [] (Some (NewJsonEntity AnyNil)) None
    (world 0 [Answered (reply 200 "200 OK" 1)] [])
  = Done (Some unsupportedRequestEntity, None) (world 0 [Answered (reply 200 "200 OK" 1)] []).
Proof.
  exact (proj2 (proj2 (json_nil_content_unsupported
                         {| clock := 0; replies := [Answered (reply 200 "200 OK" 1)] |}))
           (client []) "POST" "/ping" [] None
           (world 0 [Answered (reply 200 "200 OK" 1)] []) eq_refl).
Defined.

(** C2: at the very instant of the expiration the cached token is still
    used: the only call of the transport is the outer request, with the old
    token, and the cell is as it was. *)
Lemma intercept_at_expiration_keeps_token :
  (tokenExpiration (cell "old" 1000)
   <= fst (time_Now (env (world 1000 [Answered (reply 200 "200 OK" 1)] [cell "old" 1000]))))%Z
  /\ intercept 0 ping transport (world 1000 [Answered (reply 200 "200 OK" 1)] [cell "old" 1000])
     = Done (Some (reply 200 "200 OK" 1), None)
            {| env := {| clock := 1000; replies := [] |};
               trace := [EvSend (setHeader ping "x-auth-token" "old")];
               heap := [cell "old" 1000] |}.
Proof. split; [simpl; lia|reflexivity]. Qed.

Lemma intercept_refresh_iff_strictly_after_witness :
  heap (world 1001 [Answered (reply 200 "200 OK" 1); Answered (reply 200 "200 OK" 2)]
          [cell "old" 1000]) !! 0
  = Some (cell "old" 1000)
  /\ exists err w2,
      authenticate 0 (world 1001 [Answered (reply 200 "200 OK" 1); Answered (reply 200 "200 OK" 2)]
                        [cell "old" 1000]) = Done err w2
      /\ transportCalls (trace w2) <= 1.
Proof.
  split; [reflexivity|].
  destruct (proj1 (proj2 (intercept_refresh_iff_strictly_after 0 (cell "old" 1000) ping transport
              (world 1001 [Answered (reply 200 "200 OK" 1); Answered (reply 200 "200 OK" 2)]
                 [cell "old" 1000]) eq_refl)) ltac:(simpl; lia))
    as (err & w2 & Hauth & Hle & _).
  exists err, w2. split; [exact Hauth | exact Hle].
Defined.

(** Past the expiration the token is refreshed, once, before the request
    goes out. *)
Example intercept_past_expiration_refreshes :
  intercept 0 ping transport
    (world 1001 [Answered (reply 200 "200 OK" 1); Answered (reply 200 "200 OK" 2)]
       [cell "old" 1000])
  = Done (Some (reply 200 "200 OK" 2), None)
         {| env := {| clock := 1001; replies := [] |};
            trace := [EvSend tokenPost; EvRead 1; EvClose 1;
                      EvSend (setHeader ping "x-auth-token" "secret")];
            heap := [cell "secret" 4601] |}.
Proof. reflexivity. Qed.

(** Within the validity of the token a second call does not go to the
    identity endpoint again. *)
Example second_call_reuses_token :
  twice (intercept 0)
    (world 1001 [Answered (reply 200 "200 OK" 1); Answered (reply 200 "200 OK" 2);
                 Answered (reply 200 "200 OK" 3)]
       [cell "old" 1000])
  = Done (Some (reply 200 "200 OK" 3), None)
         {| env := {| clock := 1001; replies := [] |};
            trace := [EvSend tokenPost; EvRead 1; EvClose 1;
                      EvSend (setHeader ping "x-auth-token" "secret");
                      EvSend (setHeader ping "x-auth-token" "secret")];
            heap := [cell "secret" 4601] |}.
Proof. reflexivity. Qed.

Lemma intercept_failed_refresh_blocks_request_witness :
  heap (world 1001 [Answered (reply 500 "500 Internal Server Error" 1)] [cell "old" 1000]) !! 0
  = Some (cell "old" 1000)
  /\ Time_After 1001%Z (tokenExpiration (cell "old" 1000)) = true
  /\ exists err ro w2,
      tokenRequest (cell "old" 1000)
        (world 1001 [Answered (reply 500 "500 Internal Server Error" 1)] [cell "old" 1000])
      = Done (err, ro) w2.
Proof.
  split; [reflexivity|]. split; [reflexivity|].
  destruct (intercept_failed_refresh_blocks_request 0 (cell "old" 1000) ping transport
              (world 1001 [Answered (reply 500 "500 Internal Server Error" 1)] [cell "old" 1000])
              eq_refl eq_refl)
    as (err & ro & w2 & Hrun & _).
  exists err, ro, w2. exact Hrun.
Defined.

(** The failed refresh: the error of the identity endpoint comes back
    wrapped, the request is not sent and the cell keeps the old token. *)
Example intercept_failed_refresh :
  intercept 0 ping transport
    (world 1001 [Answered (reply 500 "500 Internal Server Error" 1)] [cell "old" 1000])
  = Done (None,
          Some (wrapError "failed to issue token request: "
                  (FailedResponseError 500 "500 Internal Server Error"
                     (Some {| ContentType := "text/plain";
                              Content := AnyBytes (String.list_byte_of_string "error text") |}))))
         {| env := {| clock := 1001; replies := [] |};
            trace := [EvSend tokenPost; EvRead 1; EvClose 1];
            heap := [cell "old" 1000] |}.
Proof. reflexivity. Qed.


End Scenarios.

(** * Further scenarios on the scripted host *)

Module FurtherScenarios.
Import Script.

Lemma buildRequest_fields_witness :
  CanonicalHeaderKey headerContentType <> CanonicalHeaderKey headerAccept
  /\ buildRequest 5 "" "http://host/db" NilReader None (Some (NewJsonEntity (AnyRef 1)))
     = inl {| Method := "GET"; RequestURL := "http://host/db";
              ReqHeader := [("Accept", ["application/json"])];
              Body := NilReader; ReqTimeout := 5 |}
  /\ Header_Get [("Accept", ["application/json"])] headerContentType = ""
  /\ Header_Get [("Accept", ["application/json"])] headerAccept = "application/json".
Proof.
  assert (Hkeys : CanonicalHeaderKey headerContentType <> CanonicalHeaderKey headerAccept)
    by discriminate.
  split; [exact Hkeys|]. split; [reflexivity|].
  destruct (@buildRequest_fields scripted 5 "" "http://host/db" NilReader None
              (Some (NewJsonEntity (AnyRef 1))) _ Hkeys eq_refl)
    as (_ & _ & _ & _ & HC & HA).
  split; [exact HC | exact HA].
Defined.

Lemma Exchange_build_errors_precede_chain_witness :
  buildReqUrl (AddInterceptor New (tracing "a")) ":" []
  = inr (wrapError "filed to parse given url :: " (errorString "missing protocol scheme"))
  /\ Exchange (AddInterceptor New (tracing "a")) "GET" ":" [] None None (world 0 [] [])
     = Done (Some (wrapError "filed to parse given url :: "
                     (errorString "missing protocol scheme")), None) (world 0 [] []).
Proof.
  split; [reflexivity|].
  exact (proj1 (Exchange_build_errors_precede_chain (AddInterceptor New (tracing "a"))
                  "GET" ":" [] None None (world 0 [] [])) _ eq_refl).
Defined.


Lemma Exchange_chain_error_witness :
  doRequest ping [] (world 0 [stopped] [])
  = Done (Some (reply 302 "302 Found" 1), Some (errorString "stopped after 10 redirects"))
         {| env := {| clock := 0; replies := [] |}; trace := [EvSend ping]; heap := [] |}
  /\ Exchange (client []) "POST" "/ping" [] (Some (NewJsonEntity (AnyString "greetings")))
       None (world 0 [stopped] [])
     = Done (Some (wrapError "failed to send request: "
                     (errorString "stopped after 10 redirects")), None)
            {| env := {| clock := 0; replies := [] |};
               trace := [EvSend (setHeader ping "Content-Type" "application/json")];
               heap := [] |}.
Proof.
  split; [reflexivity|].
  exact (proj1 (Exchange_chain_error (client []) "POST" "/ping" []
                  (Some (NewJsonEntity (AnyString "greetings"))) None _ _ _
                  (world 0 [stopped] []) _ _ _
                  eq_refl eq_refl eq_refl eq_refl)).
Defined.


Lemma processResponseContent_shape_dispatch_witness :
  processResponseContent {| ContentType := "application/xml"; Content := AnyRef 3 |}
    (reply 200 "200 OK" 1) (world 0 [] [])
  = Done ({| ContentType := "application/xml"; Content := AnyRef 3 |},
          Some unsupportedResponseEntity) (world 0 [] []).
Proof.
  refine (proj2 (proj2 (proj2 (proj2
            (processResponseContent_shape_dispatch (reply 200 "200 OK" 1) (world 0 [] [])))))
            {| ContentType := "application/xml"; Content := AnyRef 3 |} eq_refl
            (or_introl _)).
  discriminate.
Defined.

Lemma Exchange_keeps_response_entity_type_witness :
  Exchange (client []) "POST" "/ping" [] None (Some (NewJsonEntity (AnyBytes [])))
    (world 0 [Answered (reply 200 "200 OK" 1)] [])
  = Done (None, Some (NewJsonEntity (AnyBytes (String.list_byte_of_string "error text"))))
         {| env := {| clock := 0; replies := [] |};
            trace := [EvSend {| Method := "POST"; RequestURL := "http://host/ping";
                                ReqHeader := [("Accept", ["application/json"])];
                                Body := NilReader;
                                ReqTimeout := defaultRestClientTimeout |};
                      EvRead 1; EvClose 1];
            heap := [] |}
  /\ ContentType (NewJsonEntity (AnyBytes (String.list_byte_of_string "error text")))
     = ContentType (NewJsonEntity (AnyBytes [])).
Proof.
  split; [reflexivity|].
  exact (proj1 (Exchange_keeps_response_entity_type (client []) "POST" "/ping" [] None
                  (Some (NewJsonEntity (AnyBytes [])))
                  (world 0 [Answered (reply 200 "200 OK" 1)] []) _ None
                  (Some (NewJsonEntity (AnyBytes (String.list_byte_of_string "error text"))))
                  eq_refl)).
Defined.

Lemma unsupported_response_entity_after_send_witness :
  doRequest (setHeader ping "Accept" "application/json") []
    (world 0 [Answered (reply 200 "200 OK" 1)] [])
  = Done (Some (reply 200 "200 OK" 1), None)
         {| env := {| clock := 0; replies := [] |};
            trace := [EvSend (setHeader ping "Accept" "application/json")]; heap := [] |}
  /\ Exchange (client []) "POST" "/ping" []
       (Some {| ContentType := ""; Content := AnyString "greetings" |})
       (Some (NewJsonEntity AnyNil)) (world 0 [Answered (reply 200 "200 OK" 1)] [])
     = Done (Some unsupportedResponseEntity, Some (NewJsonEntity AnyNil))
            {| env := {| clock := 0; replies := [] |};
               trace := [EvSend (setHeader ping "Accept" "application/json"); EvClose 1];
               heap := [] |}.
Proof.
  split; [reflexivity|].
  refine (unsupported_response_entity_after_send (client []) "POST" "/ping" []
            (Some {| ContentType := ""; Content := AnyString "greetings" |})
            (NewJsonEntity AnyNil) _ _ _
            (world 0 [Answered (reply 200 "200 OK" 1)] []) _ (reply 200 "200 OK" 1)
            eq_refl eq_refl eq_refl eq_refl _ eq_refl (or_intror eq_refl)).
  simpl. lia.
Defined.

Lemma FailedResponseError_message_witness :
  error_Error (FailedResponseError 500 "500 Internal Server Error"
                 (Some {| ContentType := "text/plain"; Content := AnyString "error text" |}))
  = "500 Internal Server Error"
  /\ error_Error (FailedResponseError 500 "500 Internal Server Error"
                    (Some {| ContentType := "text/plain";
                             Content := AnyBytes (String.list_byte_of_string "error text") |}))
     = "500 Internal Server Error body=[error text]".
Proof.
  split.
  - exact (proj1 (proj2 (FailedResponseError_message 500 "500 Internal Server Error"))
             "text/plain" (AnyString "error text") eq_refl).
  - exact (proj1 (proj1 (proj2 (proj2
             (FailedResponseError_message 500 "500 Internal Server Error")))
             "text/plain" (String.list_byte_of_string "error text"))).
Defined.

Lemma BasicAuth_sets_authorization_witness :
  Header_Get (ReqHeader (setHeader (setHeader ping "x-req-id" "123") "Authorization"
                           (basicAuthValue "user" "pass"))) "x-req-id"
  = "123".
Proof.
  refine (proj1 (proj2 (proj2 (proj2
            (BasicAuth_sets_authorization "user" "pass" (setHeader ping "x-req-id" "123")
               (world 0 [] [])))))
            "x-req-id" _).
  discriminate.
Defined.

Lemma IdentityV2Authenticator_succeeds_iff_witness :
  IdentityV2Authenticator "https://identity" "user" "pass" "" (world 0 [] [])
  = Done (Some (intercept 0), None) (world 0 [] [passwordCell])
  /\ IdentityV2Authenticator ":" "user" "pass" "" (world 0 [] [])
     = Done (None, Some (wrapError "invalid Identity URL: "
                           (wrapError "failed to parse given base url: "
                              (errorString "missing protocol scheme")))) (world 0 [] []).
Proof.
  split.
  - refine (proj1 (proj2 (IdentityV2Authenticator_succeeds_iff "https://identity"
                            "user" "pass" "" (world 0 [] [])))
              _ _ (or_introl _) eq_refl); discriminate.
  - refine (proj2 (proj2 (proj2 (IdentityV2Authenticator_succeeds_iff ":"
                            "user" "pass" "" (world 0 [] []))))
              (errorString "missing protocol scheme") _ (or_introl _) eq_refl);
      discriminate.
Defined.

Lemma SetBaseUrl_then_resolve_witness :
  buildReqUrl (fst (SetBaseUrl (client [tracing "a"]) "http://other")) "/db"
    [("q", ["select all"])]
  = inl "http://other/db?q=1"
  /\ Front (fst (SetBaseUrl (client [tracing "a"]) "http://other")) = [tracing "a"].
Proof.
  destruct (proj2 (SetBaseUrl_then_resolve (client [tracing "a"]) "http://other")
              _ eq_refl)
    as (_ & _ & _ & Hfront & Hresolve).
  split; [exact (Hresolve "/db" [("q", ["select all"])]) | exact Hfront].
Defined.

Lemma token_request_shape_witness :
  heap (world 1 [Answered (reply 200 "200 OK" 1)] [passwordCell]) !! 0 = Some passwordCell
  /\ exists err w2,
      authenticate 0 (world 1 [Answered (reply 200 "200 OK" 1)] [passwordCell]) = Done err w2.
Proof.
  split; [reflexivity|].
  destruct (token_request_shape 0 passwordCell
              (world 1 [Answered (reply 200 "200 OK" 1)] [passwordCell]) eq_refl
              ltac:(discriminate))
    as (err & w2 & Hauth & _).
  exists err, w2. exact Hauth.
Defined.

Lemma password_credentials_without_apikey_witness :
  heap (world 1 [Answered (reply 200 "200 OK" 1)] [passwordCell]) !! 0 = Some passwordCell
  /\ apikey passwordCell = ""
  /\ credentials passwordCell
     = AnyStruct TPasswordReq
         {| PasswordReq_Username := "user"; PasswordReq_Password := "pass" |}.
Proof.
  split; [reflexivity|]. split; [reflexivity|].
  exact (proj1 (password_credentials_without_apikey 0 passwordCell
                  (world 1 [Answered (reply 200 "200 OK" 1)] [passwordCell])
                  eq_refl eq_refl)).
Defined.

(** The token request of a cell without api key, as it goes out. *)
Example password_token_request :
  authenticate 0 (world 1 [Answered (reply 200 "200 OK" 1)] [passwordCell; cell "old" 7])
  = Done None
         {| env := {| clock := 1; replies := [] |};
            trace := [EvSend {| Method := "POST";
                                RequestURL := "https://identity/v2.0/tokens";
                                ReqHeader := [("Accept", ["application/json"]);
                                              ("Content-Type", ["application/json"])];
                                Body := JsonBuffer (String.list_byte_of_string
                                                      "passwordCredentials user pass");
                                ReqTimeout := authTimeout |};
                      EvRead 1; EvClose 1];
            heap := [withToken passwordCell "secret" 3601%Z; cell "old" 7] |}.
Proof. reflexivity. Qed.

Lemma authenticate_frame_witness :
  heap (world 1 [Answered (reply 200 "200 OK" 1)] [passwordCell; cell "old" 7]) !! 0
  = Some passwordCell
  /\ exists err w2,
      authenticate 0 (world 1 [Answered (reply 200 "200 OK" 1)] [passwordCell; cell "old" 7])
      = Done err w2
      /\ heap w2 !! 1 = Some (cell "old" 7).
Proof.
  split; [reflexivity|].
  destruct (authenticate_frame 0 passwordCell
              (world 1 [Answered (reply 200 "200 OK" 1)] [passwordCell; cell "old" 7])
              eq_refl)
    as (err & w2 & Hauth & _ & Hother & _).
  exists err, w2. split; [exact Hauth|].
  rewrite (Hother 1 ltac:(discriminate)). reflexivity.
Defined.

Lemma interceptor_may_answer_witness :
  Front (client [cached; tracing "late"]) = cached :: [tracing "late"]
  /\ Exchange (client [cached; tracing "late"]) "GET" "/db" [] None None
       (world 0 [Answered (reply 200 "200 OK" 1)] [])
     = afterResponse None (reply 404 "404 Not Found" 9)
         (world 0 [Answered (reply 200 "200 OK" 1)] []).
Proof.
  split; [reflexivity|].
  exact (proj1 (proj2 (interceptor_may_answer (client [cached; tracing "late"]) cached
                  [tracing "late"] "GET" "/db" [] None None _ _ _
                  (world 0 [Answered (reply 200 "200 OK" 1)] []) _ (reply 404 "404 Not Found" 9)
                  eq_refl eq_refl eq_refl eq_refl (fun _ => eq_refl)))).
Defined.

(** The cached answer is a failed response: the network is not used. *)
Example cached_answer_fails :
  Exchange (client [cached; tracing "late"]) "GET" "/db" [] None None
    (world 0 [Answered (reply 200 "200 OK" 1)] [])
  = Done (Some (FailedResponseError 404 "404 Not Found"
                  (Some {| ContentType := "text/plain";
                           Content := AnyBytes (String.list_byte_of_string "error text") |})),
          None)
         {| env := {| clock := 0; replies := [Answered (reply 200 "200 OK" 1)] |};
            trace := [EvRead 9; EvClose 9]; heap := [] |}.
Proof. reflexivity. Qed.

Lemma entity_constructors_on_the_wire_witness :
  Front (client []) = []
  /\ CanonicalHeaderKey headerContentType <> CanonicalHeaderKey headerAccept
  /\ Exchange (client []) "POST" "/ping" [] (Some (NewJsonEntity (AnyString "greetings")))
       None (world 0 [Answered (reply 200 "200 OK" 1)] [])
     = Done (None, None)
            {| env := {| clock := 0; replies := [] |};
               trace := [EvSend (setHeader ping "Content-Type" "application/json");
                         EvClose 1];
               heap := [] |}
  /\ ([EvSend (setHeader ping "Content-Type" "application/json"); EvClose 1] = []
      \/ exists sent rest,
           [EvSend (setHeader ping "Content-Type" "application/json"); EvClose 1]
           = [] ++ EvSend sent :: rest
           /\ Body sent = BufferString "greetings"
           /\ Header_Get (ReqHeader sent) headerContentType = JsonType).
Proof.
  split; [reflexivity|].
  assert (Hkeys : CanonicalHeaderKey headerContentType <> CanonicalHeaderKey headerAccept)
    by discriminate.
  split; [exact Hkeys|]. split; [reflexivity|].
  exact (proj2 (proj2 (entity_constructors_on_the_wire (client []) "POST" "/ping" [] None
                  (world 0 [Answered (reply 200 "200 OK" 1)] []) _ None None
                  eq_refl Hkeys)) "greetings" eq_refl).
Defined.

End FurtherScenarios.
